(** * neai_format: shallow embedding and verification

    The program converts a data log (text, one record per line) into the
    signal format of NanoEdge AI Studio.  This file embeds
    [src/neai_format.py] function by function and proves the properties
    of its specification against that embedding.

    Conventions of the embedding:
    - Python [int] is [Z]; Python [str] is [string]; Python lists are [list].
    - The module-level constants of the script are the fields of a
      [config] record that every function receives.
    - [exit_on_error] (log the message, [exit(1)]) and uncaught Python
      exceptions are the two ways a run aborts; both are values of
      [failure].
    - [create_dataset] mutates [tmp_buffer], [nb_lines_built] and the
      output file: these three form the [state] threaded by the monad [M].
      The state is kept when the run aborts, as the file on disk is.
    - Python's [float(...)] and [str(<float>)] are the two operations of
      the class [PyFloat]; the development is parametric in them. *)

From Stdlib Require Import ZArith List String Ascii Bool Lia DecimalString.
Import ListNotations.

Local Open Scope string_scope.
Local Open Scope Z_scope.

(** ** Python built-ins used by the script *)

Module Py.

(** [str(n)] for an [int]. *)
Definition str_int (n : Z) : string := NilZero.string_of_int (Z.to_int n).

Definition nl : string := String "010" EmptyString.
Definition cr : ascii := "013"%char.
Definition lf : ascii := "010"%char.

(** [s.rstrip(c)] for a one-character [c]: drops every trailing [c]. *)
Fixpoint rstrip (c : ascii) (s : string) : string :=
  match s with
  | EmptyString => EmptyString
  | String a s' =>
      match rstrip c s' with
      | EmptyString => if Ascii.eqb a c then EmptyString else String a EmptyString
      | r => String a r
      end
  end.

(** [s.split(sep)] for a non-empty [sep]: leftmost, non-overlapping
    occurrences.  [skip] counts the characters of a separator occurrence
    still to be passed over; [cur] is the field being read. *)
Fixpoint split_from (sep : string) (skip : nat) (cur : string) (s : string)
  : list string :=
  match s with
  | EmptyString => [cur]
  | String a s' =>
      match skip with
      | S k => split_from sep k cur s'
      | O =>
          if String.prefix sep s
          then cur :: split_from sep (Nat.pred (String.length sep)) EmptyString s'
          else split_from sep 0 (cur ++ String a EmptyString) s'
      end
  end.

(** [s.split(sep)]: [None] stands for [ValueError: empty separator]. *)
Definition split (sep : string) (s : string) : option (list string) :=
  match sep with
  | EmptyString => None
  | _ => Some (split_from sep 0 EmptyString s)
  end.

(** [s.replace(old, new)] for a non-empty [old]. *)
Fixpoint replace_from (old new : string) (skip : nat) (s : string) : string :=
  match s with
  | EmptyString => EmptyString
  | String a s' =>
      match skip with
      | S k => replace_from old new k s'
      | O =>
          if String.prefix old s
          then new ++ replace_from old new (Nat.pred (String.length old)) s'
          else String a (replace_from old new 0 s')
      end
  end.

(** A [string] holds the UTF-8 bytes of a Python [str]; a byte 10xxxxxx
    continues the character begun before it. *)
Definition is_continuation (a : ascii) : bool :=
  match a with
  | Ascii _ _ _ _ _ _ b6 b7 => b7 && negb b6
  end.

(** With an empty [old], Python inserts [new] before every character and
    at the end: before every byte that begins a character. *)
Fixpoint intersperse_all (new : string) (s : string) : string :=
  match s with
  | EmptyString => new
  | String a s' =>
      if is_continuation a then String a (intersperse_all new s')
      else new ++ String a (intersperse_all new s')
  end.

Definition replace (old new : string) (s : string) : string :=
  match old with
  | EmptyString => intersperse_all new s
  | _ => replace_from old new 0 s
  end.

(** [sep.join(l)]. *)
Definition join (sep : string) (l : list string) : string := String.concat sep l.

(** [l[i]], negative indexes counting from the end; [None] stands for
    [IndexError]. *)
Definition getitem {A : Type} (l : list A) (i : Z) : option A :=
  let n := Z.of_nat (List.length l) in
  if 0 <=? i then nth_error l (Z.to_nat i)
  else if 0 <=? i + n then nth_error l (Z.to_nat (i + n))
  else None.

(** [l.index(x)]: position of the first element equal to [x]; [None]
    stands for [ValueError]. *)
Fixpoint index (l : list string) (x : string) : option Z :=
  match l with
  | [] => None
  | y :: l' =>
      if String.eqb y x then Some 0
      else match index l' x with
           | Some i => Some (i + 1)
           | None => None
           end
  end.

End Py.

(** ** Configuration, failures, state *)

(** An element of [COLUMNS_TO_KEEP]: an [int] or a label. *)
Inductive selector : Type :=
| Index (n : Z)
| Label (s : string).

(** [LINES_TO_BUILD]: ['ALL'] or an [int]. *)
Inductive lines_to_build : Type :=
| ALL
| Lines (n : Z).

(** The parameters at the top of the script. *)
Record config : Type := mkConfig {
  INPUT_FILE_VALUE_DELIMITER : string;
  INPUT_FILE_DECIMAL_DELIMITER : string;
  INPUT_FILE_HAS_HEADERS : bool;
  COLUMNS_TO_KEEP : list selector;
  BUFFER_SIZE : Z;
  DOWNSAMPLE_FACTOR : Z;
  LINES_TO_BUILD : lines_to_build
}.

(** The script reports every error through [exit_on_error]; the
    specification sorts the call sites into three kinds, recorded here
    next to the message. *)
Inductive error_kind : Type :=
| ConfigurationError
| LookupError
| DataFormatError.

(** The exceptions the statements embedded here can raise and the script
    does not catch.  The input of the model is the lines of the file
    once opened and decoded, and a write to the output file succeeds:
    the [OSError] of [open] and the [UnicodeDecodeError] of reading are
    outside the model. *)
Inductive py_exception : Type :=
| ZeroDivisionError
| IndexError
| ValueError
| AttributeError.

Inductive failure : Type :=
| SystemExit (kind : error_kind) (message : string)
| Uncaught (e : py_exception).

Inductive result (A : Type) : Type :=
| Ok (a : A)
| Fail (f : failure).
Arguments Ok {A} a.
Arguments Fail {A} f.

(** The mutable variables of [create_dataset] and the content of the
    output file (opened in append mode at every write). *)
Record state : Type := mkState {
  nb_lines_built : Z;
  tmp_buffer : list string;
  output_file : string
}.

Definition M (A : Type) : Type := state -> result A * state.

Definition ret {A : Type} (a : A) : M A := fun st => (Ok a, st).

Definition bind {A B : Type} (m : M A) (k : A -> M B) : M B :=
  fun st =>
    match m st with
    | (Ok a, st') => k a st'
    | (Fail f, st') => (Fail f, st')
    end.

Definition lift {A : Type} (r : result A) : M A := fun st => (r, st).

Definition raise {A : Type} (e : py_exception) : M A := lift (Fail (Uncaught e)).

Notation "x <- m ;; k" := (bind m (fun x => k))
  (at level 61, m at next level, right associativity).
Notation "m ;;; k" := (bind m (fun _ => k))
  (at level 61, right associativity).

(** [exit_on_error]: the message is logged and the process exits with
    status 1. *)
Definition exit_on_error {A : Type} (kind : error_kind) (error_message : string)
  : result A := Fail (SystemExit kind error_message).

(** The state with more values at the end of the buffer. *)
Definition buffer_extend (vs : list string) (st : state) : state :=
  mkState (nb_lines_built st) (tmp_buffer st ++ vs) (output_file st).

(** ** Floating-point interface *)

(** [float_of_str s] is Python's [float(s)], [None] standing for
    [ValueError]; [str_of_float x] is [str(x)]. *)
Class PyFloat : Type := {
  float : Type;
  float_of_str : string -> option float;
  str_of_float : float -> string
}.

(** A small instance on which the model runs: the floats with a
    non-negative integral value, read from plain digit strings and
    printed as Python prints those below 10^16 ("12" is read as 12.0 and
    printed "12.0"). *)
Definition digit_value (c : ascii) : option N :=
  let n := N_of_ascii c in
  if ((48 <=? n) && (n <=? 57))%N then Some (n - 48)%N else None.

Fixpoint digits_value (acc : N) (s : string) : option N :=
  match s with
  | EmptyString => Some acc
  | String c s' =>
      match digit_value c with
      | Some d => digits_value (10 * acc + d)%N s'
      | None => None
      end
  end.

Definition integral_of_str (s : string) : option N :=
  match s with
  | EmptyString => None
  | _ => digits_value 0%N s
  end.

Definition str_of_integral (n : N) : string := Py.str_int (Z.of_N n) ++ ".0".

#[export] Instance IntegralFloat : PyFloat :=
  {| float := N; float_of_str := integral_of_str; str_of_float := str_of_integral |}.

(** ** The script *)

Section Script.

Context {PF : PyFloat}.
Variable cfg : config.

Definition dquote : string := String "034" EmptyString.

(** The indentation of the continuation lines of the long messages. *)
Definition margin : string := Py.nl ++ "       ".

Definition check_delimiters_hint : string :=
  "Please check INPUT_FILE_VALUE_DELIMITER and INPUT_FILE_DECIMAL_DELIMITER.".

Definition delimiters_equal_message : string :=
  "Input file value delimiter and decimal delimiter are equal. Please set INPUT_FILE_VALUE_DELIMITER and INPUT_FILE_DECIMAL_DELIMITER.".

(** [read_values_of_line] (l.58-68). *)
Definition read_values_of_line (line : string) : result (list string) :=
  if String.eqb (INPUT_FILE_VALUE_DELIMITER cfg) (INPUT_FILE_DECIMAL_DELIMITER cfg)
  then exit_on_error ConfigurationError delimiters_equal_message
  else
    let line := Py.rstrip Py.cr (Py.rstrip Py.lf line) in
    match Py.split (INPUT_FILE_VALUE_DELIMITER cfg) line with
    | Some values => Ok values
    | None => Fail (Uncaught ValueError)
    end.

(** How an f-string prints [line_number], which defaults to [None]. *)
Definition str_line_number (line_number : option Z) : string :=
  match line_number with
  | Some n => Py.str_int n
  | None => "None"
  end.

Definition line_number_is (line_number : option Z) (n : Z) : bool :=
  match line_number with
  | Some m => m =? n
  | None => false
  end.

Definition cannot_convert_message (float_str value_str : string)
    (line_number : option Z) : string :=
  "Cannot convert " ++ float_str ++ " to float. Original value is " ++ value_str
    ++ " at line " ++ str_line_number line_number ++ ".".

(** [convert_to_float] (l.71-89).  With [raise_error] the [ValueError] of
    [float] is raised again, for the caller to catch. *)
Definition convert_to_float (value_str : string) (line_number : option Z)
    (raise_error : bool) : result float :=
  let float_str := Py.replace (INPUT_FILE_DECIMAL_DELIMITER cfg) "." value_str in
  match float_of_str float_str with
  | Some x => Ok x
  | None =>
      if raise_error then Fail (Uncaught ValueError)
      else if line_number_is line_number 1 && negb (INPUT_FILE_HAS_HEADERS cfg)
      then exit_on_error DataFormatError
             (cannot_convert_message float_str value_str line_number ++ " " ++ margin
                ++ "It may be because your input file has headers. In that case please set INPUT_FILE_HAS_HEADERS to True."
                ++ margin
                ++ "Or it may be because values and decimal delimiters are not correctly set. "
                ++ check_delimiters_hint)
      else if line_number_is line_number 2 && INPUT_FILE_HAS_HEADERS cfg
      then exit_on_error DataFormatError
             (cannot_convert_message float_str value_str line_number ++ " " ++ margin
                ++ "It may be because value and decimal delimiters are not correctly set. "
                ++ check_delimiters_hint)
      else exit_on_error DataFormatError
             (cannot_convert_message float_str value_str line_number)
  end.

(** [format_list] (l.92-93); [val_idx] is the position of the head. *)
Fixpoint format_items (val_idx : Z) (list_to_format : list string) : list string :=
  match list_to_format with
  | [] => []
  | val :: l => (Py.str_int (val_idx + 1) ++ ": " ++ val) :: format_items (val_idx + 1) l
  end.

Definition format_list (list_to_format : list string) : string :=
  Py.join "  " (format_items 0 list_to_format).

(** [file.readline()]: the next line and the rest of the stream; the empty
    string at the end of the file. *)
Definition readline (file : list string) : string * list string :=
  match file with
  | [] => (EmptyString, [])
  | line :: rest => (line, rest)
  end.

(** [get_headers] (l.96-118).  [INPUT_FILE_HAS_HEADERS] is a [bool] by
    its type.  The result carries the headers, the stream after the
    call, and whether the warning of l.115 was logged. *)
Definition get_headers (file : list string)
  : result (option (list string) * list string * bool) :=
  if negb (INPUT_FILE_HAS_HEADERS cfg) then Ok (None, file, false)
  else
    let (first_line, file') := readline file in
    match read_values_of_line first_line with
    | Fail f => Fail f
    | Ok first_line_values =>
        match Py.getitem first_line_values (-1) with
        | None => Fail (Uncaught IndexError)
        | Some last_value =>
            let headers_is_float :=
              match convert_to_float last_value None true with
              | Ok _ => true
              | Fail _ => false
              end in
            Ok (Some first_line_values, file', headers_is_float)
        end
    end.

(** [all([isinstance(column, int) ...])] together with the columns as
    integers when it holds. *)
Fixpoint all_int (columns : list selector) : option (list Z) :=
  match columns with
  | [] => Some []
  | Index n :: l =>
      match all_int l with
      | Some ns => Some (n :: ns)
      | None => None
      end
  | Label _ :: _ => None
  end.

Definition label_not_found_message (label : string) : string :=
  "Column label " ++ dquote ++ label ++ dquote ++ " cannot be found in input file headers".

(** The loop of l.137-141.  An [int] never equals a header, which is a
    [str]: [headers.index] raises [ValueError] on it. *)
Fixpoint resolve_labels (headers : list string) (columns : list selector)
  : result (list Z) :=
  match columns with
  | [] => Ok []
  | column :: l =>
      let found :=
        match column with
        | Label label =>
            match Py.index headers label with
            | Some i => Ok i
            | None => exit_on_error LookupError (label_not_found_message label)
            end
        | Index n => exit_on_error LookupError (label_not_found_message (Py.str_int n))
        end in
      match found with
      | Fail f => Fail f
      | Ok i =>
          match resolve_labels headers l with
          | Ok columns_indexes => Ok (i :: columns_indexes)
          | Fail f => Fail f
          end
      end
  end.

(** [get_columns_indexes_to_keep] (l.121-142). *)
Definition get_columns_indexes_to_keep (headers : option (list string))
  : result (list Z) :=
  match COLUMNS_TO_KEEP cfg with
  | [] => exit_on_error ConfigurationError "Please set parameter COLUMNS_TO_KEEP"
  | _ =>
      match all_int (COLUMNS_TO_KEEP cfg) with
      | Some column_numbers => Ok (map (fun column_number => column_number - 1) column_numbers)
      | None =>
          if negb (INPUT_FILE_HAS_HEADERS cfg)
          then exit_on_error ConfigurationError
                 "Your file has no headers (parameter INPUT_FILE_HAS_HEADERS is False) and COLUMNS_TO_KEEP contains column labels"
          else
            match headers with
            | None => Fail (Uncaught AttributeError)
            | Some headers => resolve_labels headers (COLUMNS_TO_KEEP cfg)
            end
      end
  end.

Definition not_enough_values_message (line_index idx : Z) (values : list string)
  : string :=
  "Line " ++ Py.str_int line_index
    ++ " does not contain enough values. Looking for columns number "
    ++ Py.str_int (idx + 1) ++ " and only "
    ++ Py.str_int (Z.of_nat (List.length values)) ++ " columns / "
    ++ format_list values.

(** The second line of the message of l.166-167. *)
Definition short_line_hint : string :=
  margin ++ "It may be because values delimiter is not correctly set. "
    ++ check_delimiters_hint.

(** [tmp_buffer.append(s)]. *)
Definition buffer_append (s : string) : M unit :=
  fun st => (Ok tt, mkState (nb_lines_built st) (tmp_buffer st ++ [s]) (output_file st)).

(** The body of [for idx in columns_indexes] (l.164-171). *)
Definition keep_column (line_index : Z) (values : list string) (idx : Z) : M unit :=
  let nb_values := Z.of_nat (List.length values) in
  if nb_values <=? idx
  then
    if line_index <=? 2
    then lift (exit_on_error DataFormatError
                 (not_enough_values_message line_index idx values ++ short_line_hint))
    else lift (exit_on_error DataFormatError
                 (not_enough_values_message line_index idx values))
  else
    match Py.getitem values idx with
    | None => raise IndexError
    | Some value_str =>
        value_float <- lift (convert_to_float value_str (Some line_index) false) ;;
        buffer_append (str_of_float value_float)
    end.

Fixpoint for_each {A : Type} (l : list A) (body : A -> M unit) : M unit :=
  match l with
  | [] => ret tt
  | x :: l' => body x ;;; for_each l' body
  end.

(** "Build buffer" (l.162-171). *)
Definition build_buffer (line_index : Z) (values : list string)
    (columns_indexes : list Z) : M unit :=
  if DOWNSAMPLE_FACTOR cfg =? 0 then raise ZeroDivisionError
  else if line_index mod DOWNSAMPLE_FACTOR cfg =? 0
  then for_each columns_indexes (keep_column line_index values)
  else ret tt.

(** The write of l.176-182. *)
Definition write_line : M unit :=
  fun st =>
    let output_line_string := Py.join "," (tmp_buffer st) in
    (Ok tt,
     mkState (nb_lines_built st + 1) []
       (output_file st
          ++ (if 0 <? nb_lines_built st then Py.nl else EmptyString)
          ++ output_line_string)).

(** "Write line if buffer complete" (l.174-182).  The quotient of l.174
    is a true division; it equals the integer [BUFFER_SIZE] exactly when
    the length is [BUFFER_SIZE] times the number of columns (the
    rounding of the quotient plays no role below 2^53 values). *)
Definition write_if_complete (columns_indexes : list Z) : M unit :=
  fun st =>
    if Nat.eqb (List.length columns_indexes) 0 then (Fail (Uncaught ZeroDivisionError), st)
    else if Z.of_nat (List.length (tmp_buffer st))
              =? BUFFER_SIZE cfg * Z.of_nat (List.length columns_indexes)
    then write_line st
    else (Ok tt, st).

(** The test of l.154. *)
Definition lines_to_build_reached (st : state) : bool :=
  match LINES_TO_BUILD cfg with
  | Lines n => n <=? nb_lines_built st
  | ALL => false
  end.

(** One pass of the loop once the test of l.154 has let it through
    (l.157-182). *)
Definition process_line (columns_indexes : list Z) (line_index : Z) (line : string)
  : M unit :=
  values <- lift (read_values_of_line line) ;;
  build_buffer line_index values columns_indexes ;;;
  write_if_complete columns_indexes.

(** The loop of [create_dataset] (l.151-186) on the lines the reader
    still yields, the next one numbered [line_index]. *)
Fixpoint create_dataset_loop (columns_indexes : list Z) (line_index : Z)
    (input_file_reader : list string) : M unit :=
  match input_file_reader with
  | [] => ret tt
  | line :: rest =>
      fun st =>
        if lines_to_build_reached st then (Ok tt, st)
        else
          (process_line columns_indexes line_index line ;;;
           create_dataset_loop columns_indexes (line_index + 1) rest) st
  end.

Definition first_line_index : Z := Z.b2z (INPUT_FILE_HAS_HEADERS cfg) + 1.

Definition initial_state : state := mkState 0 [] EmptyString.

(** [create_dataset] (l.145-191): the result and the final state, the
    output file not existing before. *)
Definition create_dataset (input_file_reader : list string)
    (columns_indexes : list Z) : result unit * state :=
  create_dataset_loop columns_indexes first_line_index input_file_reader initial_state.

(** The main sequence (l.217-231) on the lines of the input file. *)
Definition main (input_file : list string) : result unit * state :=
  match get_headers input_file with
  | Fail f => (Fail f, initial_state)
  | Ok (headers, input_file', _) =>
      match get_columns_indexes_to_keep headers with
      | Fail f => (Fail f, initial_state)
      | Ok columns_indexes_to_keep => create_dataset input_file' columns_indexes_to_keep
      end
  end.

End Script.

(** ** Vocabulary of the specification *)

Section Vocabulary.

Context {PF : PyFloat}.
Variable cfg : config.

(** The fields of a line: what [read_values_of_line] returns when it
    returns. *)
Definition fields (line : string) : list string :=
  Py.split_from (INPUT_FILE_VALUE_DELIMITER cfg) 0 EmptyString
    (Py.rstrip Py.cr (Py.rstrip Py.lf line)).

(** The delimiters let a line be split. *)
Definition delimiters_ok : bool :=
  negb (String.eqb (INPUT_FILE_VALUE_DELIMITER cfg) (INPUT_FILE_DECIMAL_DELIMITER cfg))
  && negb (String.eqb (INPUT_FILE_VALUE_DELIMITER cfg) EmptyString).

(** The value a row gives for one column index: the field at that index,
    converted and printed back. *)
Definition selected_value (values : list string) (idx : Z) : option string :=
  match Py.getitem values idx with
  | None => None
  | Some value_str =>
      match float_of_str (Py.replace (INPUT_FILE_DECIMAL_DELIMITER cfg) "." value_str) with
      | Some x => Some (str_of_float x)
      | None => None
      end
  end.

(** The values a row gives for the selected columns, in selector order. *)
Fixpoint selected_values (values : list string) (columns_indexes : list Z)
  : option (list string) :=
  match columns_indexes with
  | [] => Some []
  | idx :: l =>
      match selected_value values idx, selected_values values l with
      | Some v, Some vs => Some (v :: vs)
      | _, _ => None
      end
  end.

(** A line takes part in buffering when its index is divisible by the
    downsample factor. *)
Definition participates (line_index : Z) : bool :=
  line_index mod DOWNSAMPLE_FACTOR cfg =? 0.

(** The lines of a stream that take part, the first line of the stream
    being numbered [line_index]. *)
Fixpoint participating_lines (line_index : Z) (lines : list string) : list string :=
  match lines with
  | [] => []
  | line :: rest =>
      if participates line_index
      then line :: participating_lines (line_index + 1) rest
      else participating_lines (line_index + 1) rest
  end.

(** The selected values of each line of a list, one list per line. *)
Fixpoint rows_values (columns_indexes : list Z) (lines : list string)
  : option (list (list string)) :=
  match lines with
  | [] => Some []
  | line :: rest =>
      match selected_values (fields line) columns_indexes,
            rows_values columns_indexes rest with
      | Some vs, Some vss => Some (vs :: vss)
      | _, _ => None
      end
  end.

(** The text of a file made of the given rows: values joined by commas,
    rows separated by newlines. *)
Definition render (rows : list (list string)) : string :=
  Py.join Py.nl (map (Py.join ",") rows).

(** A string printed from a float. *)
Definition rendered (s : string) : Prop := exists x : float, s = str_of_float x.

(** The values of one participating row: one printed float per column. *)
Definition row_ok (columns_indexes : list Z) (vs : list string) : Prop :=
  List.length vs = List.length columns_indexes /\ Forall rendered vs.

(** A window: [BUFFER_SIZE] participating rows. *)
Definition window_ok (columns_indexes : list Z) (w : list (list string)) : Prop :=
  Z.of_nat (List.length w) = BUFFER_SIZE cfg /\ Forall (row_ok columns_indexes) w.

(** The output file holds the given windows, one per line, and the
    counter their number. *)
Definition Written (columns_indexes : list Z) (windows : list (list (list string)))
    (st : state) : Prop :=
  output_file st = render (map (@List.concat string) windows)
  /\ nb_lines_built st = Z.of_nat (List.length windows)
  /\ Forall (window_ok columns_indexes) windows.

(** The buffer holds the given rows, one after the other. *)
Definition Buffered (columns_indexes : list Z) (pending : list (list string))
    (st : state) : Prop :=
  tmp_buffer st = List.concat pending
  /\ Forall (row_ok columns_indexes) pending.

(** The state of [create_dataset] between two passes of its loop, in
    terms of the windows written so far and of the rows waiting in the
    buffer. *)
Definition Inv (columns_indexes : list Z) (windows : list (list (list string)))
    (pending : list (list string)) (st : state) : Prop :=
  Written columns_indexes windows st /\ Buffered columns_indexes pending st.

(** The rows one line adds to the buffer: its selected values when it
    takes part, nothing otherwise; [None] when it takes part and cannot
    be read. *)
Definition line_rows (columns_indexes : list Z) (line_index : Z) (line : string)
  : option (list (list string)) :=
  if participates line_index
  then match selected_values (fields line) columns_indexes with
       | Some vs => Some [vs]
       | None => None
       end
  else Some [].

(** The states a run of [create_dataset] goes through between two passes
    of its loop, with the index of the next line. *)
Inductive reachable (columns_indexes : list Z) : Z -> state -> Prop :=
| reachable_start :
    reachable columns_indexes (first_line_index cfg) initial_state
| reachable_pass : forall line_index st line st',
    reachable columns_indexes line_index st ->
    lines_to_build_reached cfg st = false ->
    process_line cfg columns_indexes line_index line st = (Ok tt, st') ->
    reachable columns_indexes (line_index + 1) st'.

(** The serialization the column-major reading of the specification
    describes: for each column in turn, the values of that column in
    every row of the window. *)
Definition column_major (nb_columns : nat) (window : list (list string))
  : list string :=
  flat_map (fun c => map (fun vs => nth c vs EmptyString) window) (seq 0 nb_columns).

(** The serialization by rows: the rows of the window one after the
    other. *)
Definition row_major (window : list (list string)) : list string :=
  List.concat window.

End Vocabulary.

(** The length at which the buffer is written: one value per selected
    column for each of [BUFFER_SIZE] rows. *)
Definition threshold (cfg : config) (columns_indexes : list Z) : Z :=
  BUFFER_SIZE cfg * Z.of_nat (List.length columns_indexes).

(** The number of complete windows a stream holds: its participating
    lines, [BUFFER_SIZE] at a time. *)
Definition complete_windows (cfg : config) (line_index : Z) (lines : list string) : Z :=
  Z.of_nat (List.length (participating_lines cfg line_index lines)) / BUFFER_SIZE cfg.


(** ** Sample configurations and streams *)

(** Two columns, windows of three rows, every line, no limit. *)
Definition two_columns : config :=
  mkConfig "," "." false [Index 1; Index 2] 3 1 ALL.

(** Column A holds 1, 2, 3 and column B holds 4, 5, 6; a fourth line
    starts a window that is never completed. *)
Definition four_lines : list string :=
  ["1,4" ++ Py.nl; "2,5" ++ Py.nl; "3,6" ++ Py.nl; "7,8"].

(** The state in which the run on [four_lines] ends: one row written,
    the fourth line waiting in the buffer. *)
Definition four_lines_end : state :=
  mkState 1 ["7.0"; "8.0"] "1.0,4.0,2.0,5.0,3.0,6.0".


(** Columns 1 and 3, windows of one row. *)
Definition first_and_third : config :=
  mkConfig "," "." false [Index 1; Index 3] 1 1 ALL.

(** A header line and two columns selected by label. *)
Definition by_label : config :=
  mkConfig ";" "," true [Label "X"; Label "Y"] 2 1 ALL.

Definition labelled_lines : list string :=
  ["T;X;Y" ++ Py.nl; "0;1;2" ++ Py.nl; "1;3;4" ++ Py.nl; "2;5;6" ++ Py.nl].

(** The selector 0. *)
Definition column_zero : config :=
  mkConfig "," "." false [Index 0] 2 1 ALL.

(** Every other line, at most one row. *)
Definition every_other : config :=
  mkConfig "," "." false [Index 1; Index 2] 1 2 (Lines 1).

(** A buffer size of zero. *)
Definition zero_buffer : config :=
  mkConfig "," "." false [Index 1] 0 1 ALL.



Definition eight_values : list string :=
  ["1,2" ++ Py.nl; "3,4" ++ Py.nl; "5,6" ++ Py.nl; "7,8" ++ Py.nl].

(** The state in which the run of [every_other] on [eight_values] ends:
    the second line written, the limit of one row reached. *)
Definition every_other_end : state := mkState 1 [] "3.0,4.0".




(** Two windows of one row. *)
Definition two_windows_lines : list string :=
  ["1,2,3" ++ Py.nl; "4,5,6" ++ Py.nl].

Definition two_windows_end : state :=
  mkState 2 [] (String.append "1.0,3.0" (String "010" "4.0,6.0")).

(** A buffer size of zero, every third line. *)
Definition zero_buffer_every_third : config :=
  mkConfig "," "." false [Index 1] 0 3 ALL.

(** Labels with equal delimiters, two labels that no header matches, and
    an integer among labels. *)
Definition labels_equal_delimiters : config :=
  mkConfig ";" ";" true [Label "Z"] 2 1 ALL.

Definition two_missing_labels : config :=
  mkConfig ";" "," true [Label "P"; Label "Q"] 2 1 ALL.

Definition integer_among_labels : config :=
  mkConfig ";" "," true [Index 1; Label "Z"] 2 1 ALL.

(** ** Vocabulary of the further properties *)

(** A string without its first [n] characters. *)
Fixpoint string_drop (n : nat) (s : string) : string :=
  match n, s with
  | O, _ => s
  | S _, EmptyString => EmptyString
  | S k, String _ s' => string_drop k s'
  end.

(** The rows of a list taken [size] at a time: the complete groups, in
    order, and the rows left over, fewer than [size]. *)
Fixpoint take_windows {A : Type} (fuel size : nat) (rows : list A)
  : list (list A) * list A :=
  match fuel with
  | O => ([], rows)
  | S fuel' =>
      if (size <=? List.length rows)%nat
      then let (windows, rest) := take_windows fuel' size (skipn size rows) in
           (firstn size rows :: windows, rest)
      else ([], rows)
  end.

Definition windows_of {A : Type} (size : nat) (rows : list A)
  : list (list A) * list A :=
  take_windows (List.length rows) size rows.

(** A configuration with another downsample factor. *)
Definition with_downsample_factor (cfg : config) (factor : Z) : config :=
  mkConfig (INPUT_FILE_VALUE_DELIMITER cfg) (INPUT_FILE_DECIMAL_DELIMITER cfg)
    (INPUT_FILE_HAS_HEADERS cfg) (COLUMNS_TO_KEEP cfg) (BUFFER_SIZE cfg) factor
    (LINES_TO_BUILD cfg).

(** The state a run ends in, as a function of the rows of the
    participating lines: the rows are cut into windows of [BUFFER_SIZE];
    without a row limit every complete window is written and the rows
    left over stay in the buffer; with a limit [L] that the windows
    reach, the first [L] windows are written and the buffer is empty. *)
Definition dataset_of (cfg : config) (vss : list (list string)) : state :=
  let (windows, rest) := windows_of (Z.to_nat (BUFFER_SIZE cfg)) vss in
  let all_written :=
    mkState (Z.of_nat (List.length windows)) (List.concat rest)
      (render (map (@List.concat string) windows)) in
  match LINES_TO_BUILD cfg with
  | ALL => all_written
  | Lines L =>
      if L <=? Z.of_nat (List.length windows)
      then mkState L [] (render (map (@List.concat string) (firstn (Z.to_nat L) windows)))
      else all_written
  end.

(** A downsample factor of zero. *)
Definition zero_factor : config :=
  mkConfig "," "." false [Index 1] 1 0 ALL.

(** [four_lines] and one line more, and the state the run ends in. *)
Definition five_lines : list string := four_lines ++ ["9,10"].

Definition five_lines_end : state :=
  mkState 1 ["7.0"; "8.0"; "9.0"; "10.0"] "1.0,4.0,2.0,5.0,3.0,6.0".

(** The rows of [four_lines]. *)
Definition four_rows : list (list string) :=
  [["1.0"; "4.0"]; ["2.0"; "5.0"]; ["3.0"; "6.0"]; ["7.0"; "8.0"]].

(** What [read_values_of_line] splits: the line without its trailing
    line feeds, then without its trailing carriage returns. *)
Definition stripped (line : string) : string :=
  Py.rstrip Py.cr (Py.rstrip Py.lf line).

(** * Properties *)

(** ** The Python built-ins *)

Lemma split_from_not_nil (sep : string) (s : string) :
  forall skip cur, Py.split_from sep skip cur s <> [].
Proof.
  induction s as [|a s IH]; intros skip cur; cbn [Py.split_from].
  - discriminate.
  - destruct skip as [|k]; [|apply IH].
    destruct (String.prefix sep (String a s)); [discriminate | apply IH].
Qed.

Lemma getitem_some_lt {A : Type} (l : list A) (i : Z) (x : A) :
  Py.getitem l i = Some x -> i < Z.of_nat (List.length l).
Proof.
  unfold Py.getitem. destruct (0 <=? i) eqn:Hi.
  - intros H. apply Z.leb_le in Hi.
    assert (Hlt : (Z.to_nat i < List.length l)%nat)
      by (apply nth_error_Some; congruence).
    lia.
  - intros _. apply Z.leb_gt in Hi. lia.
Qed.

Lemma getitem_minus_one {A : Type} (l : list A) (d : A) :
  l <> [] -> Py.getitem l (-1) = Some (last l d).
Proof.
  intros Hl. unfold Py.getitem.
  replace (0 <=? -1) with false by reflexivity.
  destruct (exists_last Hl) as [l' [x ->]].
  rewrite last_last, length_app. cbn [List.length].
  replace (0 <=? -1 + Z.of_nat (List.length l' + 1)) with true
    by (symmetry; apply Z.leb_le; lia).
  replace (Z.to_nat (-1 + Z.of_nat (List.length l' + 1))) with (List.length l') by lia.
  rewrite nth_error_app2 by lia. rewrite Nat.sub_diag. reflexivity.
Qed.

Lemma string_app_assoc (s1 s2 s3 : string) : (s1 ++ s2) ++ s3 = s1 ++ (s2 ++ s3).
Proof. induction s1 as [|a s1 IH]; cbn; [reflexivity | now rewrite IH]. Qed.

Lemma string_app_nil_r (s : string) : s ++ EmptyString = s.
Proof. induction s as [|a s IH]; cbn; [reflexivity | now rewrite IH]. Qed.

Lemma join_snoc (sep : string) (l : list string) (x : string) :
  Py.join sep (l ++ [x])
  = Py.join sep l ++ (match l with [] => EmptyString | _ => sep end) ++ x.
Proof.
  unfold Py.join. induction l as [|a l IH]; [reflexivity|].
  destruct l as [|b l].
  - cbn. reflexivity.
  - cbn [List.app String.concat] in IH |- *. rewrite IH.
    rewrite !string_app_assoc. reflexivity.
Qed.

Lemma buffer_extend_nil (st : state) : buffer_extend [] st = st.
Proof. destruct st; unfold buffer_extend; cbn. now rewrite app_nil_r. Qed.

Lemma buffer_extend_app (us vs : list string) (st : state) :
  buffer_extend vs (buffer_extend us st) = buffer_extend (us ++ vs) st.
Proof. unfold buffer_extend; cbn. now rewrite <- app_assoc. Qed.

(** ** One row *)

Section Rows.

Context {PF : PyFloat}.
Variable cfg : config.

Lemma fields_not_nil (line : string) : fields cfg line <> [].
Proof. apply split_from_not_nil. Qed.

Lemma read_values_ok (line : string) (values : list string) :
  read_values_of_line cfg line = Ok values ->
  values = fields cfg line /\ delimiters_ok cfg = true.
Proof.
  unfold read_values_of_line, delimiters_ok, fields, Py.split.
  destruct (String.eqb (INPUT_FILE_VALUE_DELIMITER cfg) (INPUT_FILE_DECIMAL_DELIMITER cfg));
    [discriminate|].
  destruct (INPUT_FILE_VALUE_DELIMITER cfg) as [|a sep]; [discriminate|].
  intros H; inversion H; subst. split; reflexivity.
Qed.

Lemma read_values_total (line : string) :
  delimiters_ok cfg = true -> read_values_of_line cfg line = Ok (fields cfg line).
Proof.
  unfold read_values_of_line, delimiters_ok, fields, Py.split.
  destruct (String.eqb (INPUT_FILE_VALUE_DELIMITER cfg) (INPUT_FILE_DECIMAL_DELIMITER cfg));
    [discriminate|].
  destruct (INPUT_FILE_VALUE_DELIMITER cfg) as [|a sep]; [discriminate|].
  reflexivity.
Qed.

Lemma keep_column_some (line_index : Z) (values : list string) (idx : Z)
    (v : string) (st : state) :
  selected_value cfg values idx = Some v ->
  keep_column cfg line_index values idx st = (Ok tt, buffer_extend [v] st).
Proof.
  unfold selected_value, keep_column.
  destruct (Py.getitem values idx) as [value_str|] eqn:Hget; [|discriminate].
  apply getitem_some_lt in Hget.
  replace (Z.of_nat (List.length values) <=? idx) with false
    by (symmetry; apply Z.leb_gt; lia).
  unfold convert_to_float, bind, lift.
  destruct (float_of_str _) as [x|]; [|discriminate].
  intros H; inversion H; subst. reflexivity.
Qed.

Lemma keep_column_none (line_index : Z) (values : list string) (idx : Z)
    (st : state) :
  selected_value cfg values idx = None ->
  exists f, keep_column cfg line_index values idx st = (Fail f, st).
Proof.
  unfold selected_value, keep_column.
  destruct (Z.of_nat (List.length values) <=? idx).
  - intros _. destruct (line_index <=? 2); eexists; reflexivity.
  - destruct (Py.getitem values idx) as [value_str|]; [|intros _; eexists; reflexivity].
    unfold convert_to_float, bind, lift.
    destruct (float_of_str _) as [x|]; [discriminate|]. intros _.
    cbn [negb].
    destruct (_ && _); [eexists; reflexivity|].
    destruct (_ && _); eexists; reflexivity.
Qed.

Lemma selected_values_row_ok (values : list string) (columns_indexes : list Z) :
  forall vs, selected_values cfg values columns_indexes = Some vs ->
             row_ok columns_indexes vs.
Proof.
  induction columns_indexes as [|idx l IH]; cbn [selected_values]; intros vs H.
  - inversion H; subst. split; [reflexivity | constructor].
  - destruct (selected_value cfg values idx) as [v|] eqn:Hv; [|discriminate].
    destruct (selected_values cfg values l) as [vs'|]; [|discriminate].
    inversion H; subst. destruct (IH vs' eq_refl) as [Hlen Hall].
    split; [cbn; now rewrite Hlen|]. constructor; [|exact Hall].
    unfold selected_value in Hv.
    destruct (Py.getitem values idx); [|discriminate].
    destruct (float_of_str _) as [x|]; [|discriminate].
    inversion Hv. now exists x.
Qed.

Lemma for_each_keep_some (line_index : Z) (values : list string)
    (columns_indexes : list Z) :
  forall vs st,
    selected_values cfg values columns_indexes = Some vs ->
    for_each columns_indexes (keep_column cfg line_index values) st
    = (Ok tt, buffer_extend vs st).
Proof.
  induction columns_indexes as [|idx l IH]; cbn [selected_values for_each]; intros vs st H.
  - inversion H; subst. unfold ret. now rewrite buffer_extend_nil.
  - destruct (selected_value cfg values idx) as [v|] eqn:Hv; [|discriminate].
    destruct (selected_values cfg values l) as [vs'|]; [|discriminate].
    inversion H; subst. unfold bind.
    rewrite (keep_column_some _ _ _ _ _ Hv), (IH vs' _ eq_refl), buffer_extend_app.
    reflexivity.
Qed.

(** A row that cannot be read aborts the run; the buffer then holds the
    values of the columns before the failing one. *)
Lemma for_each_keep_none (line_index : Z) (values : list string)
    (columns_indexes : list Z) :
  forall st,
    selected_values cfg values columns_indexes = None ->
    exists f vs,
      for_each columns_indexes (keep_column cfg line_index values) st
      = (Fail f, buffer_extend vs st)
      /\ (List.length vs < List.length columns_indexes)%nat.
Proof.
  induction columns_indexes as [|idx l IH]; cbn [selected_values for_each]; intros st H.
  - discriminate.
  - unfold bind. destruct (selected_value cfg values idx) as [v|] eqn:Hv.
    + rewrite (keep_column_some _ _ _ _ _ Hv).
      destruct (selected_values cfg values l) as [vs'|] eqn:Hl; [discriminate|].
      destruct (IH (buffer_extend [v] st) eq_refl) as [f [vs [E Hlen]]].
      exists f, (v :: vs). rewrite E, buffer_extend_app. split; [reflexivity|].
      cbn; lia.
    + destruct (keep_column_none line_index values idx st Hv) as [f E].
      exists f, []. rewrite E, buffer_extend_nil. split; [reflexivity | cbn; lia].
Qed.

End Rows.

(** ** One pass of the loop *)

Section Passes.

Context {PF : PyFloat}.
Variable cfg : config.
Variable columns_indexes : list Z.

Lemma render_snoc (rows : list (list string)) (row : list string) :
  render (rows ++ [row])
  = render rows
      ++ (if 0 <? Z.of_nat (List.length rows) then Py.nl else EmptyString)
      ++ Py.join "," row.
Proof.
  unfold render. rewrite map_app. cbn [map]. rewrite join_snoc.
  destruct rows; reflexivity.
Qed.

Lemma length_concat_rows (rows : list (list string)) :
  Forall (row_ok columns_indexes) rows ->
  List.length (List.concat rows) = (List.length rows * List.length columns_indexes)%nat.
Proof.
  induction 1 as [|vs rows [Hlen _] _ IH]; [reflexivity|].
  cbn. rewrite length_app, IH, Hlen. reflexivity.
Qed.

(** [build_buffer] touches the buffer only, and only by appending. *)
Lemma build_buffer_extends (line_index : Z) (values : list string) (st : state) :
  exists r vs,
    build_buffer cfg line_index values columns_indexes st = (r, buffer_extend vs st).
Proof.
  unfold build_buffer.
  destruct (DOWNSAMPLE_FACTOR cfg =? 0).
  { exists (Fail (Uncaught ZeroDivisionError)), []. now rewrite buffer_extend_nil. }
  destruct (line_index mod DOWNSAMPLE_FACTOR cfg =? 0).
  - destruct (selected_values cfg values columns_indexes) as [vs|] eqn:Hs.
    + exists (Ok tt), vs. now apply for_each_keep_some.
    + destruct (for_each_keep_none cfg line_index values columns_indexes st Hs)
        as [f [vs [E _]]].
      exists (Fail f), vs. exact E.
  - exists (Ok tt), []. unfold ret. now rewrite buffer_extend_nil.
Qed.

(** When [build_buffer] returns, the buffer has grown by the rows of the
    line. *)
Lemma build_buffer_ok (line_index : Z) (line : string) (st st' : state) :
  build_buffer cfg line_index (fields cfg line) columns_indexes st = (Ok tt, st') ->
  DOWNSAMPLE_FACTOR cfg <> 0
  /\ exists rows, line_rows cfg columns_indexes line_index line = Some rows
                  /\ st' = buffer_extend (List.concat rows) st.
Proof.
  unfold build_buffer, line_rows, participates.
  destruct (DOWNSAMPLE_FACTOR cfg =? 0) eqn:HF; [discriminate|].
  apply Z.eqb_neq in HF. intros H. split; [exact HF|].
  destruct (line_index mod DOWNSAMPLE_FACTOR cfg =? 0).
  - destruct (selected_values cfg (fields cfg line) columns_indexes) as [vs|] eqn:Hs.
    + rewrite (for_each_keep_some cfg _ _ _ _ st Hs) in H. inversion H; subst.
      exists [vs]. cbn. now rewrite app_nil_r.
    + destruct (for_each_keep_none cfg line_index _ _ st Hs) as [f [vs [E _]]].
      rewrite E in H. discriminate.
  - inversion H; subst. exists []. cbn. now rewrite buffer_extend_nil.
Qed.

Lemma build_buffer_total (line_index : Z) (line : string) (st : state)
    (rows : list (list string)) :
  DOWNSAMPLE_FACTOR cfg <> 0 ->
  line_rows cfg columns_indexes line_index line = Some rows ->
  build_buffer cfg line_index (fields cfg line) columns_indexes st
  = (Ok tt, buffer_extend (List.concat rows) st).
Proof.
  unfold build_buffer, line_rows, participates. intros HF.
  apply Z.eqb_neq in HF. rewrite HF.
  destruct (line_index mod DOWNSAMPLE_FACTOR cfg =? 0).
  - destruct (selected_values cfg (fields cfg line) columns_indexes) as [vs|] eqn:Hs;
      [|discriminate].
    intros H; inversion H; subst. cbn. rewrite app_nil_r.
    now apply for_each_keep_some.
  - intros H; inversion H; subst. cbn. unfold ret. now rewrite buffer_extend_nil.
Qed.

Lemma line_rows_ok (line_index : Z) (line : string) (rows : list (list string)) :
  line_rows cfg columns_indexes line_index line = Some rows ->
  Forall (row_ok columns_indexes) rows /\ (List.length rows <= 1)%nat.
Proof.
  unfold line_rows. destruct (participates cfg line_index).
  - destruct (selected_values cfg (fields cfg line) columns_indexes) as [vs|] eqn:Hs;
      [|discriminate].
    intros H; inversion H; subst. split; [|cbn; lia].
    constructor; [|constructor]. eapply selected_values_row_ok; eauto.
  - intros H; inversion H; subst. split; [constructor | cbn; lia].
Qed.

Lemma write_if_complete_total (st : state) :
  columns_indexes <> [] ->
  exists st', write_if_complete cfg columns_indexes st = (Ok tt, st').
Proof.
  intros Hc. unfold write_if_complete, write_line.
  destruct columns_indexes as [|idx l]; [congruence|]. cbn [List.length Nat.eqb].
  destruct (_ =? _); eexists; reflexivity.
Qed.

(** A pass that fails leaves the output file and the counter as they
    were. *)
Lemma process_line_fail (line_index : Z) (line : string) (st st' : state)
    (f : failure) :
  process_line cfg columns_indexes line_index line st = (Fail f, st') ->
  output_file st' = output_file st /\ nb_lines_built st' = nb_lines_built st.
Proof.
  unfold process_line, bind, lift.
  destruct (read_values_of_line cfg line) as [values|f0].
  2:{ intros H; inversion H; subst. split; reflexivity. }
  destruct (build_buffer_extends line_index values st) as [r [vs E]]. rewrite E.
  destruct r as [[]|f1].
  2:{ intros H; inversion H; subst. split; reflexivity. }
  unfold write_if_complete, write_line.
  destruct (Nat.eqb _ 0).
  { intros H; inversion H; subst. split; reflexivity. }
  destruct (_ =? _); discriminate.
Qed.

(** A pass that returns has read the rows of its line into the buffer
    and, when that made [BUFFER_SIZE] rows, has written them as one more
    window and emptied the buffer. *)
Lemma process_line_ok (line_index : Z) (line : string) (st st' : state)
    (windows : list (list (list string))) (pending : list (list string)) :
  Inv cfg columns_indexes windows pending st ->
  process_line cfg columns_indexes line_index line st = (Ok tt, st') ->
  delimiters_ok cfg = true /\ DOWNSAMPLE_FACTOR cfg <> 0 /\ columns_indexes <> []
  /\ exists rows,
       line_rows cfg columns_indexes line_index line = Some rows
       /\ ((Z.of_nat (List.length (pending ++ rows)%list) = BUFFER_SIZE cfg
            /\ Inv cfg columns_indexes (windows ++ [pending ++ rows])%list [] st')
           \/ (Z.of_nat (List.length (pending ++ rows)%list) <> BUFFER_SIZE cfg
               /\ nb_lines_built st' = nb_lines_built st
               /\ Inv cfg columns_indexes windows (pending ++ rows)%list st')).
Proof.
  intros [[Hout [Hnb Hwin]] [Hbuf Hpend]].
  unfold process_line, bind, lift.
  destruct (read_values_of_line cfg line) as [values|f0] eqn:Hread; [|discriminate].
  apply read_values_ok in Hread. destruct Hread as [-> Hdelim].
  destruct (build_buffer cfg line_index (fields cfg line) columns_indexes st)
    as [[[]|f1] st1] eqn:Hbuild; [|discriminate].
  apply build_buffer_ok in Hbuild. destruct Hbuild as [HF [rows [Hrows ->]]].
  destruct (line_rows_ok line_index line rows Hrows) as [Hrows_ok _].
  assert (Hall : Forall (row_ok columns_indexes) (pending ++ rows)%list)
    by (apply Forall_app; split; assumption).
  assert (Hcat : tmp_buffer (buffer_extend (List.concat rows) st)
                 = List.concat (pending ++ rows)%list)
    by (cbn; rewrite Hbuf, concat_app; reflexivity).
  unfold write_if_complete.
  destruct (Nat.eqb (List.length columns_indexes) 0) eqn:Hn; [discriminate|].
  apply Nat.eqb_neq in Hn.
  assert (Hc : columns_indexes <> []) by (intros ->; apply Hn; reflexivity).
  rewrite Hcat, (length_concat_rows _ Hall).
  destruct (_ =? _) eqn:Hfull; intros H; inversion H; subst; clear H;
    (split; [exact Hdelim | split; [exact HF | split; [exact Hc|]]]);
    exists rows; (split; [exact Hrows|]).
  - apply Z.eqb_eq in Hfull.
    assert (Hlen : Z.of_nat (List.length (pending ++ rows)%list) = BUFFER_SIZE cfg) by nia.
    left. split; [exact Hlen|]. split; [|split; [reflexivity | constructor]].
    split; [|split].
    + cbn [output_file buffer_extend write_line tmp_buffer nb_lines_built].
      rewrite map_app. cbn [map]. rewrite render_snoc, length_map, Hout, Hnb, Hbuf.
      rewrite concat_app. reflexivity.
    + cbn. rewrite length_app. cbn. lia.
    + apply Forall_app. split; [exact Hwin|]. constructor; [|constructor].
      split; assumption.
  - apply Z.eqb_neq in Hfull.
    right. split; [nia|]. split; [reflexivity|].
    split; [split; [|split]; assumption|]. split; assumption.
Qed.

Lemma process_line_total (line_index : Z) (line : string) (st : state)
    (rows : list (list string)) :
  delimiters_ok cfg = true -> DOWNSAMPLE_FACTOR cfg <> 0 -> columns_indexes <> [] ->
  line_rows cfg columns_indexes line_index line = Some rows ->
  exists st', process_line cfg columns_indexes line_index line st = (Ok tt, st').
Proof.
  intros Hd HF Hc Hrows. unfold process_line, bind, lift.
  rewrite (read_values_total cfg line Hd).
  rewrite (build_buffer_total line_index line st rows HF Hrows).
  apply write_if_complete_total. exact Hc.
Qed.

End Passes.

(** ** The loop *)

Section Loop.

Context {PF : PyFloat}.
Variable cfg : config.
Variable columns_indexes : list Z.

Local Open Scope list_scope.

Lemma rows_values_step (line_index : Z) (line : string) (rest : list string) :
  rows_values cfg columns_indexes (participating_lines cfg line_index (line :: rest))
  = match line_rows cfg columns_indexes line_index line,
          rows_values cfg columns_indexes (participating_lines cfg (line_index + 1) rest)
    with
    | Some rows, Some vss => Some (rows ++ vss)
    | _, _ => None
    end.
Proof.
  unfold line_rows. cbn [participating_lines].
  destruct (participates cfg line_index).
  - cbn [rows_values].
    destruct (selected_values cfg (fields cfg line) columns_indexes); [|reflexivity].
    destruct (rows_values cfg columns_indexes _); reflexivity.
  - destruct (rows_values cfg columns_indexes _); reflexivity.
Qed.

Lemma Inv_start : Inv cfg columns_indexes [] [] initial_state.
Proof. repeat split; constructor. Qed.

(** What a run that returns has done: it has gone through a prefix of the
    stream, up to its end or to the line limit, and the rows of the
    participating lines of that prefix are, in order, the windows
    written followed by the rows left in the buffer. *)
Lemma loop_ok (lines : list string) :
  forall line_index st st' windows pending,
    Inv cfg columns_indexes windows pending st ->
    create_dataset_loop cfg columns_indexes line_index lines st = (Ok tt, st') ->
    exists processed rest vss new_windows pending',
      lines = processed ++ rest
      /\ rows_values cfg columns_indexes (participating_lines cfg line_index processed)
         = Some vss
      /\ Inv cfg columns_indexes (windows ++ new_windows) pending' st'
      /\ List.concat new_windows ++ pending' = pending ++ vss
      /\ (rest = [] \/ lines_to_build_reached cfg st' = true)
      /\ (1 <= BUFFER_SIZE cfg ->
          Z.of_nat (List.length pending) < BUFFER_SIZE cfg ->
          Z.of_nat (List.length pending') < BUFFER_SIZE cfg)
      /\ (forall L, LINES_TO_BUILD cfg = Lines L ->
                    nb_lines_built st <= L -> nb_lines_built st' <= L).
Proof.
  induction lines as [|line lines IH]; intros line_index st st' windows pending HI Hrun.
  - cbn in Hrun. inversion Hrun; subst.
    exists [], [], [], [], pending. rewrite !app_nil_r.
    split; [reflexivity|]. split; [reflexivity|]. split; [exact HI|].
    split; [reflexivity|]. split; [left; reflexivity|]. split; auto.
  - cbn [create_dataset_loop] in Hrun.
    destruct (lines_to_build_reached cfg st) eqn:Hreached.
    + inversion Hrun; subst.
      exists [], (line :: lines), [], [], pending. rewrite !app_nil_r.
      split; [reflexivity|]. split; [reflexivity|]. split; [exact HI|].
      split; [reflexivity|]. split; [right; exact Hreached|]. split; auto.
    + unfold bind in Hrun.
      destruct (process_line cfg columns_indexes line_index line st)
        as [[[]|f] st1] eqn:Hpass; [|discriminate].
      destruct (process_line_ok cfg columns_indexes _ _ _ _ _ _ HI Hpass)
        as [_ [_ [_ [rows [Hrows Hcases]]]]].
      destruct (line_rows_ok cfg columns_indexes _ _ _ Hrows) as [_ Hone].
      assert (Hlim : forall L, LINES_TO_BUILD cfg = Lines L -> nb_lines_built st < L).
      { intros L HL. unfold lines_to_build_reached in Hreached. rewrite HL in Hreached.
        apply Z.leb_gt in Hreached. exact Hreached. }
      destruct Hcases as [[Hfull HI1] | [Hpart [Hnb1 HI1]]].
      * destruct (IH _ _ _ _ _ HI1 Hrun)
          as [processed [rest [vss [nw [p' [-> [Hvss [HI' [Hcat [Hend [Hb HL]]]]]]]]]]].
        exists (line :: processed), rest, (rows ++ vss), ((pending ++ rows) :: nw), p'.
        split; [reflexivity|]. split; [rewrite rows_values_step, Hrows, Hvss; reflexivity|].
        split; [rewrite <- app_assoc in HI'; exact HI'|].
        split; [cbn [List.concat]; rewrite <- !app_assoc, Hcat; reflexivity|].
        split; [exact Hend|]. split.
        { intros HB _. apply Hb; [exact HB | cbn; lia]. }
        { intros L HLines Hle. apply (HL L HLines).
          destruct HI as [[_ [Hnb _]] _]. destruct HI1 as [[_ [Hnb1 _]] _].
          specialize (Hlim L HLines). rewrite Hnb1, length_app. cbn. lia. }
      * destruct (IH _ _ _ _ _ HI1 Hrun)
          as [processed [rest [vss [nw [p' [-> [Hvss [HI' [Hcat [Hend [Hb HL]]]]]]]]]]].
        exists (line :: processed), rest, (rows ++ vss), nw, p'.
        split; [reflexivity|]. split; [rewrite rows_values_step, Hrows, Hvss; reflexivity|].
        split; [exact HI'|].
        split; [rewrite Hcat, <- app_assoc; reflexivity|].
        split; [exact Hend|]. split.
        { intros HB Hlt. apply Hb; [exact HB|]. rewrite length_app in *. lia. }
        { intros L HLines Hle. apply (HL L HLines). lia. }
Qed.

(** However a run ends, the output file holds complete windows only. *)
Lemma loop_written (lines : list string) :
  forall line_index st r st' windows pending,
    Inv cfg columns_indexes windows pending st ->
    create_dataset_loop cfg columns_indexes line_index lines st = (r, st') ->
    exists new_windows, Written cfg columns_indexes (windows ++ new_windows) st'.
Proof.
  induction lines as [|line lines IH]; intros line_index st r st' windows pending HI Hrun.
  - cbn in Hrun. inversion Hrun; subst. exists []. rewrite app_nil_r. apply HI.
  - cbn [create_dataset_loop] in Hrun.
    destruct (lines_to_build_reached cfg st).
    { inversion Hrun; subst. exists []. rewrite app_nil_r. apply HI. }
    unfold bind in Hrun.
    destruct (process_line cfg columns_indexes line_index line st)
      as [[[]|f] st1] eqn:Hpass.
    + destruct (process_line_ok cfg columns_indexes _ _ _ _ _ _ HI Hpass)
        as [_ [_ [_ [rows [_ [[_ HI1] | [_ [_ HI1]]]]]]]].
      * destruct (IH _ _ _ _ _ _ HI1 Hrun) as [nw HW].
        exists ((pending ++ rows) :: nw). rewrite <- app_assoc in HW. exact HW.
      * exact (IH _ _ _ _ _ _ HI1 Hrun).
    + inversion Hrun; subst.
      destruct (process_line_fail cfg columns_indexes _ _ _ _ _ Hpass) as [Ho Hn].
      exists []. rewrite app_nil_r. destruct HI as [[Hout [Hnb Hwin]] _].
      split; [congruence | split; [congruence | exact Hwin]].
Qed.

(** A stream whose participating lines can all be read is processed to
    the end without failure. *)
Lemma loop_total (lines : list string) :
  delimiters_ok cfg = true -> DOWNSAMPLE_FACTOR cfg <> 0 -> columns_indexes <> [] ->
  forall line_index st vss,
    rows_values cfg columns_indexes (participating_lines cfg line_index lines) = Some vss ->
    exists st', create_dataset_loop cfg columns_indexes line_index lines st = (Ok tt, st').
Proof.
  intros Hd HF Hc.
  induction lines as [|line lines IH]; intros line_index st vss Hvss.
  - eexists; reflexivity.
  - cbn [create_dataset_loop].
    destruct (lines_to_build_reached cfg st); [eexists; reflexivity|].
    rewrite rows_values_step in Hvss.
    destruct (line_rows cfg columns_indexes line_index line) as [rows|] eqn:Hrows;
      [|discriminate].
    destruct (rows_values cfg columns_indexes _) as [vss'|] eqn:Hrest; [|discriminate].
    destruct (process_line_total cfg columns_indexes line_index line st rows Hd HF Hc Hrows)
      as [st1 Hpass].
    unfold bind. rewrite Hpass. eapply IH; eauto.
Qed.

(** The states between passes satisfy the invariant. *)
Lemma reachable_Inv (line_index : Z) (st : state) :
  reachable cfg columns_indexes line_index st ->
  exists windows pending,
    Inv cfg columns_indexes windows pending st
    /\ (1 <= BUFFER_SIZE cfg -> Z.of_nat (List.length pending) < BUFFER_SIZE cfg).
Proof.
  induction 1 as [|line_index st line st' _ [windows [pending [HI Hb]]] _ Hpass].
  - exists [], []. split; [apply Inv_start | cbn; lia].
  - destruct (process_line_ok cfg columns_indexes _ _ _ _ _ _ HI Hpass)
      as [_ [_ [_ [rows [Hrows [[_ HI1] | [Hpart [_ HI1]]]]]]]].
    + exists (windows ++ [pending ++ rows]), []. split; [exact HI1 | cbn; lia].
    + exists windows, (pending ++ rows). split; [exact HI1|].
      destruct (line_rows_ok cfg columns_indexes _ _ _ Hrows) as [_ Hone].
      intros HB. specialize (Hb HB). rewrite length_app in *. lia.
Qed.

(** The state in which the loop ends is one of them. *)
Lemma loop_reachable (lines : list string) :
  forall line_index st st',
    reachable cfg columns_indexes line_index st ->
    create_dataset_loop cfg columns_indexes line_index lines st = (Ok tt, st') ->
    exists line_index', reachable cfg columns_indexes line_index' st'.
Proof.
  induction lines as [|line lines IH]; intros line_index st st' Hr Hrun.
  - inversion Hrun; subst. eauto.
  - cbn [create_dataset_loop] in Hrun.
    destruct (lines_to_build_reached cfg st) eqn:Hreached.
    { inversion Hrun; subst. eauto. }
    unfold bind in Hrun.
    destruct (process_line cfg columns_indexes line_index line st)
      as [[[]|f] st1] eqn:Hpass; [|discriminate].
    eapply IH; [|exact Hrun]. eapply reachable_pass; eauto.
Qed.

End Loop.

(** ** The run *)

Section Run.

Context {PF : PyFloat}.
Variable cfg : config.
Variable columns_indexes : list Z.

Local Open Scope list_scope.

Lemma window_length (w : list (list string)) :
  window_ok cfg columns_indexes w ->
  Z.of_nat (List.length (List.concat w)) = threshold cfg columns_indexes.
Proof.
  intros [Hlen Hrows]. rewrite (length_concat_rows columns_indexes w Hrows).
  unfold threshold. lia.
Qed.

Lemma windows_length (windows : list (list (list string))) :
  Forall (window_ok cfg columns_indexes) windows ->
  Z.of_nat (List.length (List.concat windows))
  = Z.of_nat (List.length windows) * BUFFER_SIZE cfg.
Proof.
  induction 1 as [|w windows [Hlen _] _ IH]; [reflexivity|].
  cbn [List.concat List.length]. rewrite length_app. lia.
Qed.

Lemma rows_values_length (lines : list string) :
  forall vss, rows_values cfg columns_indexes lines = Some vss ->
              List.length vss = List.length lines.
Proof.
  induction lines as [|line lines IH]; cbn [rows_values]; intros vss H.
  - inversion H; reflexivity.
  - destruct (selected_values cfg (fields cfg line) columns_indexes); [|discriminate].
    destruct (rows_values cfg columns_indexes lines) as [vss'|]; [|discriminate].
    inversion H; subst. cbn. now rewrite (IH vss' eq_refl).
Qed.

Lemma participating_lines_app (l1 l2 : list string) :
  forall line_index,
    participating_lines cfg line_index (l1 ++ l2)
    = participating_lines cfg line_index l1
        ++ participating_lines cfg (line_index + Z.of_nat (List.length l1)) l2.
Proof.
  induction l1 as [|line l1 IH]; intros line_index.
  - cbn. now rewrite Z.add_0_r.
  - cbn [List.app participating_lines List.length].
    replace (line_index + Z.of_nat (S (List.length l1)))
      with (line_index + 1 + Z.of_nat (List.length l1)) by lia.
    rewrite IH. destruct (participates cfg line_index); reflexivity.
Qed.

End Run.

(** * The claims of the specification *)

Local Open Scope list_scope.

(** ** C2: the buffer between flushes, and the size of the rows *)

(** C2, as the code has it.  For a buffer size of at least one: in
    every state a run goes through between two passes, the length of the buffer is a multiple of
    the number of selected columns and does not exceed the threshold
    (number of columns times buffer size); the write at the end of a pass
    happens exactly when the length equals the threshold, and then empties
    the buffer and counts one more row; and every row of the output file,
    however the run ends, has exactly that many values.  The state a run
    returns in is one of those states. *)
Theorem buffer_between_flushes {PF : PyFloat} (cfg : config) (columns_indexes : list Z) :
  1 <= BUFFER_SIZE cfg ->
  (forall line_index st,
      reachable cfg columns_indexes line_index st ->
      (exists k : nat,
          List.length (tmp_buffer st) = (k * List.length columns_indexes)%nat)
      /\ Z.of_nat (List.length (tmp_buffer st)) <= threshold cfg columns_indexes
      /\ (columns_indexes <> [] ->
          Z.of_nat (List.length (tmp_buffer st)) < threshold cfg columns_indexes))
  /\ (forall st st',
         write_if_complete cfg columns_indexes st = (Ok tt, st') ->
         (Z.of_nat (List.length (tmp_buffer st)) = threshold cfg columns_indexes
          /\ st' = mkState (nb_lines_built st + 1) []
                     (String.append (output_file st)
                        (String.append
                           (if 0 <? nb_lines_built st then Py.nl else EmptyString)
                           (Py.join "," (tmp_buffer st)))))
         \/ (Z.of_nat (List.length (tmp_buffer st)) <> threshold cfg columns_indexes
             /\ st' = st))
  /\ (forall lines r st,
         create_dataset cfg lines columns_indexes = (r, st) ->
         exists rows,
           output_file st = render rows
           /\ nb_lines_built st = Z.of_nat (List.length rows)
           /\ Forall (fun row => Z.of_nat (List.length row) = threshold cfg columns_indexes)
                rows)
  /\ (forall lines st,
         create_dataset cfg lines columns_indexes = (Ok tt, st) ->
         exists line_index, reachable cfg columns_indexes line_index st).
Proof.
  intros HB. split; [|split; [|split]].
  - intros line_index st Hr.
    destruct (reachable_Inv cfg columns_indexes line_index st Hr)
      as [windows [pending [[_ [Hbuf Hpend]] Hlt]]].
    specialize (Hlt HB).
    pose proof (length_concat_rows columns_indexes pending Hpend) as Hlen.
    rewrite <- Hbuf in Hlen. unfold threshold.
    split; [exists (List.length pending); exact Hlen|].
    split; [nia|]. intros Hc.
    assert (0 < List.length columns_indexes)%nat
      by (destruct columns_indexes; [congruence | cbn; lia]).
    nia.
  - intros st st'. unfold write_if_complete, write_line, threshold.
    destruct (Nat.eqb _ 0); [discriminate|].
    destruct (_ =? _) eqn:E; intros H; inversion H; subst.
    + left. apply Z.eqb_eq in E. split; [exact E | reflexivity].
    + right. apply Z.eqb_neq in E. split; [exact E | reflexivity].
  - intros lines r st Hrun.
    destruct (loop_written cfg columns_indexes lines _ _ _ _ _ _
                (Inv_start cfg columns_indexes) Hrun) as [nw [Hout [Hnb Hwin]]].
    cbn [List.app] in *.
    exists (map (@List.concat string) nw).
    split; [exact Hout|]. split; [now rewrite length_map|].
    apply Forall_map. eapply Forall_impl; [|exact Hwin].
    intros w Hw. now apply window_length.
  - intros lines st Hrun.
    eapply loop_reachable; [apply reachable_start | exact Hrun].
Qed.

(** C2 refuted as stated: with a buffer size of zero the threshold is
    zero, the first line puts one value in the buffer, no write follows,
    and the run ends with a buffer longer than the threshold. *)
Lemma buffer_exceeds_zero_threshold :
  @create_dataset IntegralFloat zero_buffer ["1"%string] [0]
  = (Ok tt, mkState 0 ["1.0"%string] EmptyString)
  /\ @reachable IntegralFloat zero_buffer [0] (first_line_index zero_buffer + 1)
       (mkState 0 ["1.0"%string] EmptyString)
  /\ threshold zero_buffer [0]
     < Z.of_nat (List.length (tmp_buffer (mkState 0 ["1.0"%string] EmptyString))).
Proof.
  split; [vm_compute; reflexivity|]. split.
  - apply (@reachable_pass IntegralFloat zero_buffer [0] (first_line_index zero_buffer)
             initial_state "1"%string).
    + apply reachable_start.
    + reflexivity.
    + vm_compute. reflexivity.
  - vm_compute. reflexivity.
Qed.

(** ** C3: the number of rows *)

Lemma count_of_run {PF : PyFloat} (cfg : config) (columns_indexes : list Z)
    (lines : list string) (st : state) :
  1 <= BUFFER_SIZE cfg ->
  (forall L, LINES_TO_BUILD cfg = Lines L -> 0 <= L) ->
  create_dataset cfg lines columns_indexes = (Ok tt, st) ->
  nb_lines_built st
  = match LINES_TO_BUILD cfg with
    | ALL => complete_windows cfg (first_line_index cfg) lines
    | Lines L => Z.min L (complete_windows cfg (first_line_index cfg) lines)
    end.
Proof.
  intros HB HL Hrun.
  destruct (loop_ok cfg columns_indexes lines _ _ _ _ _ (Inv_start cfg columns_indexes) Hrun)
    as [processed [rest [vss [nw [p' [-> [Hvss [HI [Hcat [Hend [Hb Hle]]]]]]]]]]].
  cbn [List.app] in *. destruct HI as [[_ [Hnb Hwin]] _].
  assert (Hp : Z.of_nat (List.length p') < BUFFER_SIZE cfg) by (apply Hb; cbn; lia).
  pose proof (windows_length cfg columns_indexes nw Hwin) as Hw.
  pose proof (rows_values_length cfg columns_indexes _ _ Hvss) as Hlen.
  assert (Hsum : Z.of_nat (List.length (participating_lines cfg (first_line_index cfg) processed))
                 = BUFFER_SIZE cfg * nb_lines_built st + Z.of_nat (List.length p')).
  { rewrite <- Hlen, <- Hcat, length_app. lia. }
  assert (Hdiv : nb_lines_built st
                 = complete_windows cfg (first_line_index cfg) processed).
  { unfold complete_windows.
    apply (Z.div_unique_pos _ _ _ (Z.of_nat (List.length p'))); [lia | exact Hsum]. }
  assert (Hmono : complete_windows cfg (first_line_index cfg) processed
                  <= complete_windows cfg (first_line_index cfg) (processed ++ rest)).
  { unfold complete_windows. apply Z.div_le_mono; [lia|].
    rewrite participating_lines_app, length_app. lia. }
  destruct Hend as [-> | Hreached].
  - rewrite app_nil_r in *. destruct (LINES_TO_BUILD cfg) as [|L] eqn:E; [exact Hdiv|].
    specialize (Hle L eq_refl). cbn in Hle. specialize (Hle (HL L eq_refl)). lia.
  - unfold lines_to_build_reached in Hreached.
    destruct (LINES_TO_BUILD cfg) as [|L] eqn:E; [discriminate|].
    apply Z.leb_le in Hreached.
    specialize (Hle L eq_refl). cbn in Hle. specialize (Hle (HL L eq_refl)). lia.
Qed.



(** ** C4: downsampling *)





(** ** C1: the order of the values in a row *)

(** C1, as the code has it.  A run that returns has written its rows by
    rows of the input, not by columns: each line of the output file is a
    window of [BUFFER_SIZE] consecutive participating lines, serialized
    as the selected values of the first of them (in selector order), then
    those of the second, and so on; the buffer holds the rows read since
    the last write in the same order.  With two columns and three rows
    the line reads a1,b1,a2,b2,a3,b3. *)
Theorem rows_are_row_major {PF : PyFloat} (cfg : config) (columns_indexes : list Z)
    (lines : list string) (st : state) :
  create_dataset cfg lines columns_indexes = (Ok tt, st) ->
  (exists processed rest windows pending,
      lines = processed ++ rest
      /\ (rest = [] \/ lines_to_build_reached cfg st = true)
      /\ rows_values cfg columns_indexes
           (participating_lines cfg (first_line_index cfg) processed)
         = Some (List.concat windows ++ pending)
      /\ Forall (window_ok cfg columns_indexes) windows
      /\ output_file st = render (map row_major windows)
      /\ tmp_buffer st = row_major pending)
  /\ (forall a1 b1 a2 b2 a3 b3 : string,
         Py.join "," (row_major [[a1; b1]; [a2; b2]; [a3; b3]])
         = String.concat "," [a1; b1; a2; b2; a3; b3]).
Proof.
  intros Hrun. split; [|reflexivity].
  destruct (loop_ok cfg columns_indexes lines _ _ _ _ _ (Inv_start cfg columns_indexes) Hrun)
    as [processed [rest [vss [nw [p' [-> [Hvss [HI [Hcat [Hend _]]]]]]]]]].
  cbn [List.app] in *. destruct HI as [[Hout [_ Hwin]] [Hbuf _]].
  exists processed, rest, nw, p'. rewrite Hcat.
  repeat (split; [first [reflexivity | assumption]|]). exact Hbuf.
Qed.

(** C1 refuted as stated: with columns 1 and 2, windows of three rows and
    a stream whose column A holds 1, 2, 3 and column B holds 4, 5, 6,
    the line written is 1.0,4.0,2.0,5.0,3.0,6.0 and not the column-major
    1.0,2.0,3.0,4.0,5.0,6.0. *)
Lemma column_major_refuted :
  fst (@main IntegralFloat two_columns four_lines) = Ok tt
  /\ output_file (snd (@main IntegralFloat two_columns four_lines))
     = "1.0,4.0,2.0,5.0,3.0,6.0"%string
  /\ Py.join "," (column_major 2 [["1.0"; "4.0"]; ["2.0"; "5.0"]; ["3.0"; "6.0"]])
     = "1.0,2.0,3.0,4.0,5.0,6.0"%string
  /\ output_file (snd (@main IntegralFloat two_columns four_lines))
     <> Py.join "," (column_major 2 [["1.0"; "4.0"]; ["2.0"; "5.0"]; ["3.0"; "6.0"]]).
Proof.
  split; [vm_compute; reflexivity|]. split; [vm_compute; reflexivity|].
  split; [vm_compute; reflexivity|]. vm_compute. discriminate.
Qed.

(** ** C5: the text of the output file *)

Lemma join_ends_with_last (sep : string) (l : list string) (x : string) :
  exists prefix, Py.join sep (l ++ [x]) = String.append prefix x.
Proof.
  rewrite join_snoc. eexists. rewrite <- string_app_assoc. reflexivity.
Qed.

Lemma window_rendered {PF : PyFloat} (cfg : config) (columns_indexes : list Z)
    (w : list (list string)) :
  window_ok cfg columns_indexes w -> Forall rendered (List.concat w).
Proof.
  intros [_ Hrows]. induction Hrows as [|vs w [_ Hvs] _ IH]; [constructor|].
  cbn. apply Forall_app. split; assumption.
Qed.

(** What a run that fails has done before: it has gone through a prefix
    of the stream without failing, and the windows written are windows
    of the rows of the participating lines of that prefix. *)
Lemma loop_fail {PF : PyFloat} (cfg : config) (columns_indexes : list Z)
    (lines : list string) :
  forall line_index st f st' windows pending,
    Inv cfg columns_indexes windows pending st ->
    create_dataset_loop cfg columns_indexes line_index lines st = (Fail f, st') ->
    exists processed rest vss new_windows pending',
      lines = processed ++ rest
      /\ rows_values cfg columns_indexes (participating_lines cfg line_index processed)
         = Some vss
      /\ Written cfg columns_indexes (windows ++ new_windows) st'
      /\ List.concat new_windows ++ pending' = pending ++ vss.
Proof.
  induction lines as [|line lines IH]; intros line_index st f st' windows pending HI Hrun;
    [discriminate|].
  cbn [create_dataset_loop] in Hrun.
  destruct (lines_to_build_reached cfg st); [discriminate|].
  unfold bind in Hrun.
  destruct (process_line cfg columns_indexes line_index line st)
    as [[[]|f1] st1] eqn:Hpass.
  - destruct (process_line_ok cfg columns_indexes _ _ _ _ _ _ HI Hpass)
      as [_ [_ [_ [rows [Hrows [[_ HI1] | [_ [_ HI1]]]]]]]];
      destruct (IH _ _ _ _ _ _ HI1 Hrun)
        as [processed [rest [vss [nw [p' [-> [Hvss [HW Hcat]]]]]]]].
    + exists (line :: processed), rest, (rows ++ vss), ((pending ++ rows) :: nw), p'.
      split; [reflexivity|].
      split; [rewrite rows_values_step, Hrows, Hvss; reflexivity|].
      split; [rewrite <- app_assoc in HW; exact HW|].
      cbn [List.concat]. rewrite <- !app_assoc, Hcat. reflexivity.
    + exists (line :: processed), rest, (rows ++ vss), nw, p'.
      split; [reflexivity|].
      split; [rewrite rows_values_step, Hrows, Hvss; reflexivity|].
      split; [exact HW|]. rewrite Hcat, <- app_assoc. reflexivity.
  - inversion Hrun; subst.
    destruct (process_line_fail cfg columns_indexes _ _ _ _ _ Hpass) as [Ho Hn].
    exists [], (line :: lines), [], [], pending. rewrite !app_nil_r.
    split; [reflexivity|]. split; [reflexivity|]. split; [|reflexivity].
    destruct HI as [[Hout [Hnb Hwin]] _].
    split; [congruence | split; [congruence | exact Hwin]].
Qed.

(** C5, as the code has it.  Each write appends to the output file the
    buffer joined by commas, preceded by one newline when a row was
    written before and by nothing otherwise.  Hence, however a run ends,
    the output file is, byte for byte, the windows written, each on one
    line as the comma-joined printed floats of its rows, with one
    newline between two lines and none before the first; the windows are
    windows of the rows of the participating lines of the stream, in
    order, and nothing follows the text of the last one.  With a buffer
    size of at least one a line is never empty and the file ends with
    the last printed float, so with no newline that the script wrote. *)
Theorem output_file_format {PF : PyFloat} (cfg : config) (columns_indexes : list Z) :
  (forall st,
      write_line st
      = (Ok tt,
         mkState (nb_lines_built st + 1) []
           (String.append (output_file st)
              (String.append
                 (if 0 <? nb_lines_built st then String "010" EmptyString else EmptyString)
                 (String.concat "," (tmp_buffer st))))))
  /\ (forall lines r st,
         create_dataset cfg lines columns_indexes = (r, st) ->
         exists processed rest windows pending,
           lines = processed ++ rest
           /\ rows_values cfg columns_indexes
                (participating_lines cfg (first_line_index cfg) processed)
              = Some (List.concat windows ++ pending)
           /\ Forall (window_ok cfg columns_indexes) windows
           /\ output_file st
              = String.concat (String "010" EmptyString)
                  (map (String.concat ",") (map row_major windows))
           /\ nb_lines_built st = Z.of_nat (List.length windows)
           /\ Forall (fun w =>
                        Z.of_nat (List.length (row_major w)) = threshold cfg columns_indexes
                        /\ Forall rendered (row_major w)) windows
           /\ (r = Ok tt ->
               (rest = [] \/ lines_to_build_reached cfg st = true)
               /\ tmp_buffer st = List.concat pending)
           /\ (windows <> [] ->
               exists prefix,
                 output_file st
                 = String.append prefix (String.concat "," (row_major (last windows []))))
           /\ (1 <= BUFFER_SIZE cfg -> columns_indexes <> [] -> windows <> [] ->
               exists prefix x,
                 output_file st = String.append prefix (str_of_float x))).
Proof.
  split; [reflexivity|].
  intros lines r st Hrun.
  assert (Hcore : exists processed rest windows pending,
             lines = processed ++ rest
             /\ rows_values cfg columns_indexes
                  (participating_lines cfg (first_line_index cfg) processed)
                = Some (List.concat windows ++ pending)
             /\ Written cfg columns_indexes windows st
             /\ (r = Ok tt ->
                 (rest = [] \/ lines_to_build_reached cfg st = true)
                 /\ tmp_buffer st = List.concat pending)).
  { destruct r as [[]|f].
    - destruct (loop_ok cfg columns_indexes lines _ _ _ _ _
                  (Inv_start cfg columns_indexes) Hrun)
        as [processed [rest [vss [nw [p' [E [Hvss [[HW [Hbuf _]] [Hcat [Hend _]]]]]]]]]].
      cbn [List.app] in *. exists processed, rest, nw, p'. rewrite Hcat. auto.
    - destruct (loop_fail cfg columns_indexes lines _ _ _ _ _ _
                  (Inv_start cfg columns_indexes) Hrun)
        as [processed [rest [vss [nw [p' [E [Hvss [HW Hcat]]]]]]]].
      cbn [List.app] in *. exists processed, rest, nw, p'. rewrite Hcat.
      split; [exact E|]. split; [exact Hvss|]. split; [exact HW | discriminate]. }
  destruct Hcore as [processed [rest [windows [pending [E [Hvss [[Hout [Hnb Hwin]] Hok]]]]]]].
  assert (Hrows : Forall (fun w =>
                            Z.of_nat (List.length (row_major w))
                            = threshold cfg columns_indexes
                            /\ Forall rendered (row_major w)) windows).
  { eapply Forall_impl; [|exact Hwin].
    intros w Hw. split; [now apply window_length | eapply window_rendered; eauto]. }
  exists processed, rest, windows, pending.
  split; [exact E|]. split; [exact Hvss|]. split; [exact Hwin|].
  split; [exact Hout|]. split; [exact Hnb|]. split; [exact Hrows|].
  split; [exact Hok|]. split.
  { intros Hne. destruct (exists_last Hne) as [ws [w Ews]].
    rewrite Hout, Ews, last_last, map_app. cbn [map]. rewrite render_snoc.
    eexists. rewrite <- string_app_assoc. reflexivity. }
  intros HB Hc Hne.
  destruct (exists_last Hne) as [ws [w Ews]].
  rewrite Hout, Ews, map_app. cbn [map]. rewrite Ews in Hrows.
  apply Forall_app in Hrows. destruct Hrows as [_ Hrow].
  inversion Hrow as [|? ? [Hlen Hrend] _]; subst.
  assert (Hn : (0 < List.length columns_indexes)%nat)
    by (destruct columns_indexes; [congruence | cbn; lia]).
  assert (Hrow_ne : row_major w <> []).
  { intros Enil. rewrite Enil in Hlen. unfold threshold in Hlen. cbn in Hlen. nia. }
  destruct (exists_last Hrow_ne) as [row0 [v Erow]].
  rewrite Erow in Hrend. apply Forall_app in Hrend. destruct Hrend as [_ Hv].
  inversion Hv as [|? ? [x Hx] _]; subst.
  rewrite render_snoc. fold (row_major w). rewrite Erow.
  destruct (join_ends_with_last "," row0 (str_of_float x)) as [prefix Ej].
  rewrite Ej. eexists. exists x. rewrite <- !string_app_assoc. reflexivity.
Qed.

(** C5 refuted as stated: with a buffer size of zero and every third line
    taken, a stream of two lines has the empty buffer written twice, and
    the output file is one newline: it ends with a newline. *)
Lemma trailing_newline_with_zero_buffer :
  @create_dataset IntegralFloat zero_buffer_every_third ["1"; "2"]%string [0]
  = (Ok tt, mkState 2 [] (String "010" EmptyString))
  /\ exists prefix,
       output_file (snd (@create_dataset IntegralFloat zero_buffer_every_third
                           ["1"; "2"]%string [0]))
       = String.append prefix (String "010" EmptyString).
Proof.
  split; [vm_compute; reflexivity|]. exists EmptyString. vm_compute. reflexivity.
Qed.

(** ** C6: equal delimiters *)

Lemma read_values_equal_delimiters {PF : PyFloat} (cfg : config) (line : string) :
  INPUT_FILE_VALUE_DELIMITER cfg = INPUT_FILE_DECIMAL_DELIMITER cfg ->
  read_values_of_line cfg line
  = Fail (SystemExit ConfigurationError delimiters_equal_message).
Proof.
  intros H. unfold read_values_of_line. rewrite H, String.eqb_refl. reflexivity.
Qed.



(** ** C7: rows that are too short *)

Lemma for_each_app {A : Type} (l1 l2 : list A) (body : A -> M unit) (st : state) :
  for_each (l1 ++ l2) body st
  = match for_each l1 body st with
    | (Ok _, st1) => for_each l2 body st1
    | (Fail f, st1) => (Fail f, st1)
    end.
Proof.
  revert st. induction l1 as [|x l1 IH]; intros st; [reflexivity|].
  cbn [List.app for_each]. unfold bind.
  destruct (body x st) as [[[]|f] st1]; [apply IH | reflexivity].
Qed.

Lemma selected_values_short {PF : PyFloat} (cfg : config) (values : list string)
    (columns_indexes : list Z) (idx : Z) :
  In idx columns_indexes -> Z.of_nat (List.length values) <= idx ->
  selected_values cfg values columns_indexes = None.
Proof.
  intros Hin Hshort. induction columns_indexes as [|i l IH]; [contradiction|].
  cbn [selected_values]. destruct Hin as [-> | Hin].
  - unfold selected_value.
    destruct (Py.getitem values idx) as [v|] eqn:Hget; [|reflexivity].
    apply getitem_some_lt in Hget. lia.
  - rewrite (IH Hin). destruct (selected_value cfg values i); reflexivity.
Qed.

(** C7, as the code has it.  On a participating line, the columns are
    read in selector order.  When the columns requested before [idx] have
    been read and the row has no field at index [idx], the pass fails
    with a DataFormatError whose message gives the line number, the
    column number [idx + 1], the number of fields and the fields
    themselves, numbered from 1 (with a hint about the delimiter on lines
    1 and 2); the buffer has received the values of the columns before
    [idx] and nothing of [idx] or of the columns after it, and the loop
    stops there, leaving the output file as it was.  A participating row
    too short for any of its columns never passes: the run aborts on it,
    with that error or with the error of an earlier column. *)
Theorem short_row_fails {PF : PyFloat} (cfg : config) (line_index : Z)
    (values : list string) (before : list Z) (idx : Z) (after : list Z)
    (vs : list string) :
  DOWNSAMPLE_FACTOR cfg <> 0 ->
  line_index mod DOWNSAMPLE_FACTOR cfg = 0 ->
  selected_values cfg values before = Some vs ->
  Z.of_nat (List.length values) <= idx ->
  let message :=
    String.append (not_enough_values_message line_index idx values)
      (if line_index <=? 2 then short_line_hint else EmptyString) in
  (forall st,
      build_buffer cfg line_index values (before ++ idx :: after) st
      = (Fail (SystemExit DataFormatError message), buffer_extend vs st))
  /\ List.length vs = List.length before
  /\ not_enough_values_message line_index idx values
     = String.concat EmptyString
         ["Line "%string; Py.str_int line_index;
          " does not contain enough values. Looking for columns number "%string;
          Py.str_int (idx + 1); " and only "%string;
          Py.str_int (Z.of_nat (List.length values)); " columns / "%string;
          Py.join "  " (format_items 0 values)]
  /\ (forall line rest st,
         fields cfg line = values -> delimiters_ok cfg = true ->
         lines_to_build_reached cfg st = false ->
         create_dataset_loop cfg (before ++ idx :: after) line_index (line :: rest) st
         = (Fail (SystemExit DataFormatError message), buffer_extend vs st))
  /\ (forall columns_indexes st,
         In idx columns_indexes ->
         exists f vs',
           build_buffer cfg line_index values columns_indexes st
           = (Fail f, buffer_extend vs' st)
           /\ (List.length vs' < List.length columns_indexes)%nat).
Proof.
  intros HF Hpart Hbefore Hshort message.
  assert (Hbuild : forall st,
             build_buffer cfg line_index values (before ++ idx :: after) st
             = (Fail (SystemExit DataFormatError message), buffer_extend vs st)).
  { intros st. unfold build_buffer.
    apply Z.eqb_neq in HF. rewrite HF.
    apply Z.eqb_eq in Hpart. rewrite Hpart.
    rewrite for_each_app, (for_each_keep_some cfg _ _ _ _ st Hbefore).
    cbn [for_each]. unfold bind, keep_column.
    apply Z.leb_le in Hshort. rewrite Hshort. subst message.
    destruct (line_index <=? 2); unfold lift, exit_on_error;
      [reflexivity | now rewrite string_app_nil_r]. }
  split; [exact Hbuild|]. split; [|split; [|split]].
  - destruct (selected_values_row_ok cfg values before vs Hbefore) as [Hlen _]. exact Hlen.
  - reflexivity.
  - intros line rest st Hfields Hd Hlimit.
    cbn [create_dataset_loop]. rewrite Hlimit.
    unfold bind, process_line, bind, lift.
    rewrite (read_values_total cfg line Hd), Hfields, Hbuild. reflexivity.
  - intros columns_indexes st Hin.
    pose proof (selected_values_short cfg values columns_indexes idx Hin Hshort) as Hnone.
    unfold build_buffer.
    apply Z.eqb_neq in HF. rewrite HF.
    apply Z.eqb_eq in Hpart. rewrite Hpart.
    apply for_each_keep_none. exact Hnone.
Qed.

(** C7 refuted as stated: with columns 1 and 3 the row "x,2" has no
    third field, and the run fails on its first field, with the message
    of the conversion, which names no column and lists no field. *)
Lemma short_row_other_error :
  Z.of_nat (List.length (fields first_and_third "x,2")) <= 2
  /\ (exists tail,
         @main IntegralFloat first_and_third ["x,2"%string]
         = (Fail (SystemExit DataFormatError
                    (String.append
                       "Cannot convert x to float. Original value is x at line 1." tail)),
            initial_state))
  /\ fst (@main IntegralFloat first_and_third ["x,2"%string])
     <> Fail (SystemExit DataFormatError
                (String.append (not_enough_values_message 1 2 ["x"%string; "2"%string])
                   short_line_hint))
  /\ fst (@main IntegralFloat first_and_third ["x,2"%string])
     <> Fail (SystemExit DataFormatError
                (not_enough_values_message 1 2 ["x"%string; "2"%string])).
Proof.
  split; [vm_compute; discriminate|].
  split; [eexists; vm_compute; reflexivity|].
  split; vm_compute; discriminate.
Qed.

(** ** C8: selectors that are labels *)

Lemma index_some (l : list string) (x : string) :
  forall i, Py.index l x = Some i ->
            0 <= i /\ nth_error l (Z.to_nat i) = Some x
            /\ ~ In x (firstn (Z.to_nat i) l).
Proof.
  induction l as [|y l IH]; cbn [Py.index]; intros i H; [discriminate|].
  destruct (String.eqb y x) eqn:E.
  - inversion H; subst. apply String.eqb_eq in E. subst.
    cbn. repeat split; auto with zarith.
  - destruct (Py.index l x) as [j|]; [|discriminate].
    inversion H; subst. destruct (IH j eq_refl) as [Hj [Hnth Hfirst]].
    replace (Z.to_nat (j + 1)) with (S (Z.to_nat j)) by lia.
    split; [lia|]. split; [exact Hnth|].
    cbn [firstn]. intros [-> | Hin]; [|now apply Hfirst].
    rewrite String.eqb_refl in E. discriminate.
Qed.

Lemma index_none (l : list string) (x : string) :
  Py.index l x = None <-> ~ In x l.
Proof.
  induction l as [|y l IH]; cbn [Py.index]; [tauto|].
  destruct (String.eqb y x) eqn:E.
  - apply String.eqb_eq in E. subst. split; [discriminate|].
    intros H. exfalso. apply H. now left.
  - apply String.eqb_neq in E. destruct (Py.index l x) as [j|].
    + split; [discriminate|]. intros H. exfalso.
      assert (Hl : ~ In x l) by (intros Hin; apply H; now right).
      apply IH in Hl. discriminate.
    + split; [|reflexivity]. intros _ [-> | Hin]; [congruence|].
      now apply (proj1 IH).
Qed.

Lemma all_int_none (columns : list selector) :
  all_int columns = None <-> exists label, In (Label label) columns.
Proof.
  induction columns as [|c l IH]; cbn [all_int].
  - split; [discriminate | intros [? []]].
  - destruct c as [n|label].
    + destruct (all_int l) as [ns|].
      * split; [discriminate|]. intros [label [H|H]]; [discriminate|].
        assert (Hex : exists label, In (Label label) l) by eauto.
        apply IH in Hex. discriminate.
      * split; [|reflexivity]. intros _.
        destruct (proj1 IH eq_refl) as [label H]. exists label. now right.
    + split; [|reflexivity]. intros _. exists label. now left.
Qed.

Lemma resolve_labels_ok (headers : list string) (columns : list selector) :
  forall columns_indexes,
    resolve_labels headers columns = Ok columns_indexes ->
    Forall2 (fun column i =>
               exists label, column = Label label /\ Py.index headers label = Some i)
      columns columns_indexes.
Proof.
  induction columns as [|c l IH]; cbn [resolve_labels]; intros columns_indexes H.
  - inversion H; constructor.
  - destruct c as [n|label]; [discriminate|].
    destruct (Py.index headers label) as [i|] eqn:Hi; [|discriminate].
    destruct (resolve_labels headers l) as [idxs|]; [|discriminate].
    inversion H; subst. constructor; [eauto | now apply IH].
Qed.

Lemma resolve_labels_total (headers : list string) (labels : list string) :
  Forall (fun label => In label headers) labels ->
  exists columns_indexes,
    resolve_labels headers (map Label labels) = Ok columns_indexes.
Proof.
  induction 1 as [|label labels Hin _ [idxs IH]]; [eexists; reflexivity|].
  cbn [map resolve_labels].
  destruct (Py.index headers label) as [i|] eqn:Hi.
  - rewrite IH. eexists; reflexivity.
  - apply index_none in Hi. contradiction.
Qed.

Lemma resolve_labels_first_missing (headers : list string) (found : list string)
    (label : string) (after : list selector) :
  Forall (fun l => In l headers) found -> ~ In label headers ->
  resolve_labels headers (map Label found ++ Label label :: after)
  = Fail (SystemExit LookupError (label_not_found_message label)).
Proof.
  intros Hfound Hmiss. induction Hfound as [|l found Hin _ IH].
  - cbn [map List.app resolve_labels].
    apply index_none in Hmiss. rewrite Hmiss. reflexivity.
  - cbn [map List.app resolve_labels].
    destruct (Py.index headers l) as [i|] eqn:Hi.
    + rewrite IH. reflexivity.
    + apply index_none in Hi. contradiction.
Qed.

Lemma resolve_labels_first (headers : list string) (columns : list selector) :
  (exists column,
      In column columns
      /\ match column with
         | Label label => ~ In label headers
         | Index _ => True
         end) ->
  exists found column after,
    columns = map Label found ++ column :: after
    /\ Forall (fun l => In l headers) found
    /\ match column with
       | Label label => ~ In label headers
       | Index _ => True
       end
    /\ resolve_labels headers columns
       = Fail (SystemExit LookupError
                 (label_not_found_message
                    match column with
                    | Label label => label
                    | Index n => Py.str_int n
                    end)).
Proof.
  induction columns as [|c l IH]; intros [c1 [Hin Hun]]; [contradiction|].
  cbn [resolve_labels]. destruct c as [n|label0].
  - exists [], (Index n), l. repeat split. constructor.
  - destruct (Py.index headers label0) as [i|] eqn:Hi.
    + assert (Hfound : In label0 headers).
      { apply index_some in Hi. destruct Hi as [_ [Hnth _]].
        now apply nth_error_In in Hnth. }
      assert (Hin' : In c1 l).
      { destruct Hin as [E | Hin]; [|exact Hin]. subst c1. contradiction. }
      destruct (IH (ex_intro _ c1 (conj Hin' Hun))) as [found [c [after [E [Hf [Hc Hr]]]]]].
      exists (label0 :: found), c, after.
      split; [cbn; now rewrite E|]. split; [now constructor|].
      split; [exact Hc|]. now rewrite Hr.
    + exists [], (Label label0), l.
      split; [reflexivity|]. split; [constructor|].
      split; [now apply index_none | reflexivity].
Qed.

Lemma get_headers_present {PF : PyFloat} (cfg : config) (lines : list string) :
  INPUT_FILE_HAS_HEADERS cfg = true -> delimiters_ok cfg = true ->
  exists warned,
    get_headers cfg lines
    = Ok (Some (fields cfg (fst (readline lines))), snd (readline lines), warned).
Proof.
  intros Hh Hd. unfold get_headers. rewrite Hh. cbn [negb].
  destruct (readline lines) as [first_line file']. cbn [fst snd].
  rewrite (read_values_total cfg first_line Hd).
  rewrite (getitem_minus_one (fields cfg first_line) EmptyString (fields_not_nil cfg first_line)).
  eexists; reflexivity.
Qed.

(** C8, as the code has it.  When some selector is a label: if headers
    are declared absent, column resolution, and with it the run, fails
    with a ConfigurationError.  If they are declared present, resolution
    against the header fields succeeds only when every selector is a
    label found among them, and then gives for each label the position
    of the first header equal to it; it succeeds whenever all selectors
    are such labels; and if some selector is not found (a label that is
    not among the headers, or an integer) it fails with the LookupError
    that names the first selector not found, in the order of the list.
    The run resolves the selectors against the fields of the first line
    of the input once that line has been split: with equal delimiters it
    fails before that, with their ConfigurationError. *)
Theorem label_selectors {PF : PyFloat} (cfg : config) :
  (exists label, In (Label label) (COLUMNS_TO_KEEP cfg)) ->
  (INPUT_FILE_HAS_HEADERS cfg = false ->
   let failure :=
     SystemExit ConfigurationError
       "Your file has no headers (parameter INPUT_FILE_HAS_HEADERS is False) and COLUMNS_TO_KEEP contains column labels" in
   (forall headers, get_columns_indexes_to_keep cfg headers = Fail failure)
   /\ (forall lines, main cfg lines = (Fail failure, initial_state)))
  /\ (INPUT_FILE_HAS_HEADERS cfg = true ->
      forall headers,
        (forall columns_indexes,
            get_columns_indexes_to_keep cfg (Some headers) = Ok columns_indexes ->
            Forall2 (fun column i =>
                       exists label,
                         column = Label label /\ 0 <= i
                         /\ nth_error headers (Z.to_nat i) = Some label
                         /\ ~ In label (firstn (Z.to_nat i) headers))
              (COLUMNS_TO_KEEP cfg) columns_indexes)
        /\ (forall labels,
               COLUMNS_TO_KEEP cfg = map Label labels ->
               Forall (fun label => In label headers) labels ->
               exists columns_indexes,
                 get_columns_indexes_to_keep cfg (Some headers) = Ok columns_indexes)
        /\ ((exists column,
                In column (COLUMNS_TO_KEEP cfg)
                /\ match column with
                   | Label label => ~ In label headers
                   | Index _ => True
                   end) ->
            exists found column after,
              COLUMNS_TO_KEEP cfg = map Label found ++ column :: after
              /\ Forall (fun l => In l headers) found
              /\ match column with
                 | Label label => ~ In label headers
                 | Index _ => True
                 end
              /\ get_columns_indexes_to_keep cfg (Some headers)
                 = Fail (SystemExit LookupError
                           (String.concat EmptyString
                              ["Column label "%string; dquote;
                               match column with
                               | Label label => label
                               | Index n => Py.str_int n
                               end;
                               dquote; " cannot be found in input file headers"%string])))
        /\ (forall found label after,
               COLUMNS_TO_KEEP cfg = map Label found ++ Label label :: after ->
               Forall (fun l => In l headers) found -> ~ In label headers ->
               get_columns_indexes_to_keep cfg (Some headers)
               = Fail (SystemExit LookupError (label_not_found_message label))))
  /\ (INPUT_FILE_HAS_HEADERS cfg = true -> delimiters_ok cfg = true ->
      forall lines,
        main cfg lines
        = match get_columns_indexes_to_keep cfg
                  (Some (fields cfg (fst (readline lines)))) with
          | Ok columns_indexes =>
              create_dataset cfg (snd (readline lines)) columns_indexes
          | Fail f => (Fail f, initial_state)
          end)
  /\ (INPUT_FILE_HAS_HEADERS cfg = true ->
      INPUT_FILE_VALUE_DELIMITER cfg = INPUT_FILE_DECIMAL_DELIMITER cfg ->
      forall lines,
        main cfg lines
        = (Fail (SystemExit ConfigurationError delimiters_equal_message), initial_state)).
Proof.
  intros Hlabel.
  assert (Hnone : all_int (COLUMNS_TO_KEEP cfg) = None) by now apply all_int_none.
  assert (Hget : forall headers,
             get_columns_indexes_to_keep cfg headers
             = if negb (INPUT_FILE_HAS_HEADERS cfg)
               then exit_on_error ConfigurationError
                      "Your file has no headers (parameter INPUT_FILE_HAS_HEADERS is False) and COLUMNS_TO_KEEP contains column labels"
               else match headers with
                    | None => Fail (Uncaught AttributeError)
                    | Some headers => resolve_labels headers (COLUMNS_TO_KEEP cfg)
                    end).
  { intros headers. unfold get_columns_indexes_to_keep. rewrite Hnone.
    destruct (COLUMNS_TO_KEEP cfg); [discriminate | reflexivity]. }
  split; [|split; [|split]].
  - intros Hh failure. split.
    + intros headers. rewrite Hget, Hh. reflexivity.
    + intros lines. unfold main, get_headers. rewrite Hh. cbn [negb].
      rewrite Hget, Hh. reflexivity.
  - intros Hh headers. rewrite Hget, Hh. cbn [negb].
    split; [|split; [|split]].
    + intros columns_indexes Hres. apply resolve_labels_ok in Hres.
      eapply Forall2_impl; [|exact Hres].
      intros column i [label [-> Hi]]. apply index_some in Hi.
      destruct Hi as [H0 [Hnth Hfirst]]. exists label. auto.
    + intros labels -> Hall. now apply resolve_labels_total.
    + intros Hmiss.
      destruct (resolve_labels_first headers _ Hmiss) as [found [c [after [E [Hf [Hun Hr]]]]]].
      exists found, c, after. split; [exact E|]. split; [exact Hf|].
      split; [exact Hun|]. rewrite Hr. reflexivity.
    + intros found label after -> Hfound Hmiss.
      now apply resolve_labels_first_missing.
  - intros Hh Hd lines. unfold main.
    destruct (get_headers_present cfg lines Hh Hd) as [warned ->]. reflexivity.
  - intros Hh Heq lines. unfold main, get_headers. rewrite Hh. cbn [negb].
    destruct (readline lines) as [first_line file'].
    rewrite (read_values_equal_delimiters cfg first_line Heq). reflexivity.
Qed.

(** C8 refuted as stated.  With headers present and a label that no
    header matches, the run fails with the ConfigurationError when the
    delimiters are equal; when two labels are missing the LookupError
    names the first and not the second; and when an integer stands
    before the missing label the LookupError names the integer. *)
Lemma label_claim_refuted :
  @main IntegralFloat labels_equal_delimiters ["T;X;Y"%string]
  = (Fail (SystemExit ConfigurationError delimiters_equal_message), initial_state)
  /\ @main IntegralFloat two_missing_labels ["T;X;Y"%string]
     = (Fail (SystemExit LookupError (label_not_found_message "P")), initial_state)
  /\ label_not_found_message "P" <> label_not_found_message "Q"
  /\ @main IntegralFloat integer_among_labels ["T;X;Y"%string]
     = (Fail (SystemExit LookupError (label_not_found_message "1")), initial_state)
  /\ label_not_found_message "1" <> label_not_found_message "Z".
Proof.
  split; [vm_compute; reflexivity|]. split; [vm_compute; reflexivity|].
  split; [vm_compute; discriminate|]. split; [vm_compute; reflexivity|].
  vm_compute. discriminate.
Qed.

(** ** C9: the selector 0 *)

Lemma all_int_map (columns : list selector) :
  forall ns, all_int columns = Some ns -> columns = map Index ns.
Proof.
  induction columns as [|c l IH]; cbn [all_int]; intros ns H.
  - inversion H; reflexivity.
  - destruct c as [n|label]; [|discriminate].
    destruct (all_int l) as [ns'|]; [|discriminate].
    inversion H; subst. cbn. now rewrite (IH ns' eq_refl).
Qed.


(** ** C10: the window left incomplete *)

(** C10.  At the end of the stream the loop returns at once, without
    error and leaving the state, hence the output file, as it is:
    whatever the buffer holds is not written.  So a run that returns has
    written the complete windows only, the counter is their number, and
    the rows read after the last complete window, fewer than
    [BUFFER_SIZE], stay in the buffer.  A stream whose participating
    lines can all be read makes the run return, whether its last window
    is complete or not. *)
Theorem partial_window_dropped {PF : PyFloat} (cfg : config) (columns_indexes : list Z)
    (lines : list string) :
  (forall line_index st,
      create_dataset_loop cfg columns_indexes line_index [] st = (Ok tt, st))
  /\ (forall st,
         create_dataset cfg lines columns_indexes = (Ok tt, st) ->
         exists processed rest windows pending,
           lines = processed ++ rest
           /\ (rest = [] \/ lines_to_build_reached cfg st = true)
           /\ rows_values cfg columns_indexes
                (participating_lines cfg (first_line_index cfg) processed)
              = Some (List.concat windows ++ pending)
           /\ Forall (window_ok cfg columns_indexes) windows
           /\ output_file st = render (map (@List.concat string) windows)
           /\ nb_lines_built st = Z.of_nat (List.length windows)
           /\ tmp_buffer st = List.concat pending
           /\ (1 <= BUFFER_SIZE cfg ->
               Z.of_nat (List.length pending) < BUFFER_SIZE cfg
               /\ Z.of_nat (List.length (tmp_buffer st)) <= threshold cfg columns_indexes
               /\ (LINES_TO_BUILD cfg = ALL ->
                   nb_lines_built st
                   = complete_windows cfg (first_line_index cfg) lines)))
  /\ (delimiters_ok cfg = true -> DOWNSAMPLE_FACTOR cfg <> 0 -> columns_indexes <> [] ->
      forall vss,
        rows_values cfg columns_indexes
          (participating_lines cfg (first_line_index cfg) lines) = Some vss ->
        exists st, create_dataset cfg lines columns_indexes = (Ok tt, st)).
Proof.
  split; [reflexivity|]. split.
  - intros st Hrun.
    destruct (loop_ok cfg columns_indexes lines _ _ _ _ _ (Inv_start cfg columns_indexes) Hrun)
      as [processed [rest [vss [nw [p' [E [Hvss [HI [Hcat [Hend [Hb _]]]]]]]]]]].
    cbn [List.app] in *. destruct HI as [[Hout [Hnb Hwin]] [Hbuf Hpend]].
    exists processed, rest, nw, p'. rewrite Hcat.
    repeat (split; [first [reflexivity | assumption]|]).
    intros HB.
    assert (Hlt : Z.of_nat (List.length p') < BUFFER_SIZE cfg) by (apply Hb; cbn; lia).
    split; [exact Hlt|]. split.
    + rewrite Hbuf, (length_concat_rows columns_indexes p' Hpend). unfold threshold. nia.
    + intros HALL.
      pose proof (count_of_run cfg columns_indexes lines st HB) as Hcount.
      rewrite HALL in Hcount. apply Hcount; [discriminate | exact Hrun].
  - intros Hd HF Hc vss Hvss. unfold create_dataset. eapply loop_total; eauto.
Qed.

(** * The theorems at work on sample runs *)

Lemma four_lines_run :
  @create_dataset IntegralFloat two_columns four_lines [0; 1] = (Ok tt, four_lines_end).
Proof. vm_compute. reflexivity. Defined.

Lemma rows_are_row_major_witness :
  @create_dataset IntegralFloat two_columns four_lines [0; 1] = (Ok tt, four_lines_end)
  /\ (exists processed rest windows pending,
         four_lines = processed ++ rest
         /\ (rest = [] \/ lines_to_build_reached two_columns four_lines_end = true)
         /\ @rows_values IntegralFloat two_columns [0; 1]
              (participating_lines two_columns (first_line_index two_columns) processed)
            = Some (List.concat windows ++ pending)
         /\ Forall (@window_ok IntegralFloat two_columns [0; 1]) windows
         /\ output_file four_lines_end = render (map row_major windows)
         /\ tmp_buffer four_lines_end = row_major pending).
Proof.
  split; [vm_compute; reflexivity|].
  apply (proj1 (@rows_are_row_major IntegralFloat two_columns [0; 1] four_lines
                  four_lines_end four_lines_run)).
Defined.

Lemma buffer_between_flushes_witness :
  1 <= BUFFER_SIZE two_columns
  /\ (forall line_index st,
         @reachable IntegralFloat two_columns [0; 1] line_index st ->
         Z.of_nat (List.length (tmp_buffer st)) <= 6)
  /\ (exists rows,
         output_file four_lines_end = render rows
         /\ nb_lines_built four_lines_end = Z.of_nat (List.length rows)
         /\ Forall (fun row => Z.of_nat (List.length row) = threshold two_columns [0; 1])
              rows).
Proof.
  assert (HB : 1 <= BUFFER_SIZE two_columns) by (vm_compute; discriminate).
  pose proof (@buffer_between_flushes IntegralFloat two_columns [0; 1] HB)
    as [Hreach [_ [Hrows _]]].
  split; [exact HB|]. split.
  - intros line_index st Hr. exact (proj1 (proj2 (Hreach line_index st Hr))).
  - exact (Hrows four_lines (Ok tt) four_lines_end four_lines_run).
Defined.

Lemma every_other_run :
  @create_dataset IntegralFloat every_other eight_values [0; 1] = (Ok tt, every_other_end).
Proof. vm_compute. reflexivity. Defined.




Lemma two_windows_run :
  @create_dataset IntegralFloat first_and_third two_windows_lines [0; 2]
  = (Ok tt, two_windows_end).
Proof. vm_compute. reflexivity. Defined.

Lemma output_file_format_witness :
  @create_dataset IntegralFloat first_and_third two_windows_lines [0; 2]
  = (Ok tt, two_windows_end)
  /\ output_file two_windows_end
     = String.append "1.0,3.0" (String "010" "4.0,6.0")
  /\ exists windows,
       Forall (@window_ok IntegralFloat first_and_third [0; 2]) windows
       /\ output_file two_windows_end
          = String.concat (String "010" EmptyString)
              (map (String.concat ",") (map row_major windows))
       /\ nb_lines_built two_windows_end = Z.of_nat (List.length windows)
       /\ (1 <= BUFFER_SIZE first_and_third -> [0; 2] <> ([] : list Z) ->
           windows <> [] ->
           exists prefix x,
             output_file two_windows_end
             = String.append prefix (@str_of_float IntegralFloat x)).
Proof.
  split; [exact two_windows_run|]. split; [reflexivity|].
  destruct (proj2 (@output_file_format IntegralFloat first_and_third [0; 2])
              two_windows_lines (Ok tt) two_windows_end two_windows_run)
    as [processed [rest [windows [pending [_ [_ [Hwin [Hout [Hnb [_ [_ [_ Hend]]]]]]]]]]]].
  exists windows. split; [exact Hwin|]. split; [exact Hout|].
  split; [exact Hnb | exact Hend].
Defined.


Lemma short_row_fails_witness :
  DOWNSAMPLE_FACTOR first_and_third <> 0
  /\ 1 mod DOWNSAMPLE_FACTOR first_and_third = 0
  /\ @selected_values IntegralFloat first_and_third ["1"; "2"]%string [0]
     = Some ["1.0"%string]
  /\ Z.of_nat (List.length ["1"; "2"]%string) <= 2
  /\ @create_dataset_loop IntegralFloat first_and_third [0; 2] 1 ["1,2"%string] initial_state
     = (Fail (SystemExit DataFormatError
                (String.append (not_enough_values_message 1 2 ["1"; "2"]%string)
                   short_line_hint)),
        buffer_extend ["1.0"%string] initial_state).
Proof.
  assert (HF : DOWNSAMPLE_FACTOR first_and_third <> 0) by (vm_compute; discriminate).
  assert (Hpart : 1 mod DOWNSAMPLE_FACTOR first_and_third = 0) by reflexivity.
  assert (Hbefore : @selected_values IntegralFloat first_and_third ["1"; "2"]%string [0]
                    = Some ["1.0"%string]) by (vm_compute; reflexivity).
  assert (Hshort : Z.of_nat (List.length ["1"; "2"]%string) <= 2) by (vm_compute; discriminate).
  split; [exact HF|]. split; [exact Hpart|]. split; [exact Hbefore|]. split; [exact Hshort|].
  apply (proj1 (proj2 (proj2 (proj2
           (@short_row_fails IntegralFloat first_and_third 1 ["1"; "2"]%string [0] 2 []
              ["1.0"%string] HF Hpart Hbefore Hshort)))));
    reflexivity.
Defined.

Lemma label_selectors_witness :
  (exists label, In (Label label) (COLUMNS_TO_KEEP by_label))
  /\ (exists columns_indexes,
         @get_columns_indexes_to_keep by_label (Some ["T"; "X"; "Y"]%string)
         = Ok columns_indexes)
  /\ @get_columns_indexes_to_keep by_label (Some ["T"; "X"]%string)
     = Fail (SystemExit LookupError (label_not_found_message "Y")).
Proof.
  assert (Hlabel : exists label, In (Label label) (COLUMNS_TO_KEEP by_label))
    by (exists "X"%string; left; reflexivity).
  split; [exact Hlabel|].
  pose proof (proj1 (proj2 (@label_selectors IntegralFloat by_label Hlabel)) eq_refl) as H.
  split.
  - apply (proj1 (proj2 (H ["T"; "X"; "Y"]%string)) ["X"; "Y"]%string eq_refl).
    repeat constructor; cbn; tauto.
  - apply (proj2 (proj2 (proj2 (H ["T"; "X"]%string))) ["X"%string] "Y"%string [] eq_refl).
    + repeat constructor; cbn; tauto.
    + cbn. intros [E | [E | []]]; discriminate.
Defined.


Lemma partial_window_dropped_witness :
  @create_dataset IntegralFloat two_columns four_lines [0; 1] = (Ok tt, four_lines_end)
  /\ tmp_buffer four_lines_end = ["7.0"; "8.0"]%string
  /\ exists processed rest windows pending,
       four_lines = processed ++ rest
       /\ (rest = [] \/ lines_to_build_reached two_columns four_lines_end = true)
       /\ @rows_values IntegralFloat two_columns [0; 1]
            (participating_lines two_columns (first_line_index two_columns) processed)
          = Some (List.concat windows ++ pending)
       /\ Forall (@window_ok IntegralFloat two_columns [0; 1]) windows
       /\ output_file four_lines_end = render (map (@List.concat string) windows)
       /\ nb_lines_built four_lines_end = Z.of_nat (List.length windows)
       /\ tmp_buffer four_lines_end = List.concat pending
       /\ (1 <= BUFFER_SIZE two_columns ->
           Z.of_nat (List.length pending) < BUFFER_SIZE two_columns
           /\ Z.of_nat (List.length (tmp_buffer four_lines_end)) <= threshold two_columns [0; 1]
           /\ (LINES_TO_BUILD two_columns = ALL ->
               nb_lines_built four_lines_end
               = complete_windows two_columns (first_line_index two_columns) four_lines)).
Proof.
  split; [exact four_lines_run|]. split; [reflexivity|].
  exact (proj1 (proj2 (@partial_window_dropped IntegralFloat two_columns [0; 1] four_lines))
           four_lines_end four_lines_run).
Defined.

(** ** The built-ins and the script on small inputs *)

Example split_trailing_delimiter : Py.split "," "a,b," = Some ["a"; "b"; ""]%string.
Proof. reflexivity. Qed.

Example split_long_delimiter : Py.split "--" "a--b-c---d" = Some ["a"; "b-c"; "-d"]%string.
Proof. reflexivity. Qed.

Example split_empty_line : Py.split "," "" = Some [""%string].
Proof. reflexivity. Qed.

Example rstrip_trailing_only : Py.rstrip "a" "baaxaa" = "baax"%string.
Proof. reflexivity. Qed.

Example replace_decimal_comma : Py.replace "," "." "3,14" = "3.14"%string.
Proof. reflexivity. Qed.

Example replace_empty_old : Py.replace "" "." "ab" = ".a.b."%string.
Proof. reflexivity. Qed.

(** The two bytes of one accented letter stay together. *)
Example replace_empty_old_two_bytes :
  Py.replace "" "." (String "195" (String "169" "b"))
  = String "." (String "195" (String "169" ".b."))%string.
Proof. reflexivity. Qed.

Example str_int_signs :
  Py.str_int (-12) = "-12"%string /\ Py.str_int 0 = "0"%string
  /\ Py.str_int 305 = "305"%string.
Proof. repeat split; reflexivity. Qed.

Example getitem_negative :
  Py.getitem ["a"; "b"; "c"]%string (-1) = Some "c"%string
  /\ Py.getitem ["a"; "b"; "c"]%string (-4) = None
  /\ Py.getitem ["a"; "b"; "c"]%string 3 = None.
Proof. repeat split; reflexivity. Qed.

Example line_endings_stripped :
  fields two_columns (String.append "1,4" (String "013" Py.nl)) = ["1"; "4"]%string.
Proof. reflexivity. Qed.

Example format_list_numbers_from_one :
  format_list ["x"; "2"]%string = "1: x  2: 2"%string.
Proof. reflexivity. Qed.

(** With a header line the first data line has index 2. *)
Example labelled_run :
  @main IntegralFloat by_label labelled_lines
  = (Ok tt, mkState 1 ["5.0"; "6.0"]%string "1.0,2.0,3.0,4.0").
Proof. vm_compute. reflexivity. Qed.

(** The selector 0 buffers the last field of each row. *)
Example column_zero_run :
  @main IntegralFloat column_zero ["1,2,3"; "4,5"; "6"]%string
  = (Ok tt, mkState 1 ["6.0"%string] "3.0,5.0").
Proof. vm_compute. reflexivity. Qed.

(** A second row in the output file comes after a newline. *)
Example two_rows_run :
  output_file (snd (@main IntegralFloat first_and_third ["1,2,3"; "4,5,6"]%string))
  = String.append "1.0,3.0" (String.append Py.nl "4.0,6.0").
Proof. vm_compute. reflexivity. Qed.

(** * Further properties of the script *)

(** ** Reading a line *)

Lemma string_drop_0 (s : string) : string_drop 0 s = s.
Proof. destruct s; reflexivity. Qed.

Lemma prefix_drop (p s : string) :
  String.prefix p s = true -> s = String.append p (string_drop (String.length p) s).
Proof.
  revert s. induction p as [|a p IH]; intros s H.
  - destruct s; reflexivity.
  - destruct s as [|b s]; [discriminate|]. cbn in H.
    destruct (Ascii.ascii_dec a b) as [->|]; [|discriminate].
    cbn. now rewrite <- (IH s H).
Qed.

Lemma split_from_join (sep : string) (s : string) :
  sep <> EmptyString ->
  forall skip cur,
    Py.join sep (Py.split_from sep skip cur s) = String.append cur (string_drop skip s).
Proof.
  intros Hsep. induction s as [|a s IH]; intros skip cur.
  - cbn [Py.split_from]. destruct skip; cbn; now rewrite string_app_nil_r.
  - cbn [Py.split_from]. destruct skip as [|k]; [|rewrite IH; reflexivity].
    destruct (String.prefix sep (String a s)) eqn:Hp.
    + pose proof (IH (Nat.pred (String.length sep)) EmptyString) as Hrest.
      destruct (Py.split_from sep (Nat.pred (String.length sep)) EmptyString s)
        as [|x xs] eqn:Hx.
      { exfalso. eapply split_from_not_nil; eauto. }
      unfold Py.join in *. cbn [String.concat]. cbn [String.concat] in Hrest.
      rewrite Hrest. cbn [String.append string_drop].
      apply prefix_drop in Hp. destruct sep as [|b sep']; [congruence|].
      cbn [String.length Nat.pred]. cbn [String.length string_drop] in Hp.
      rewrite <- Hp. reflexivity.
    + rewrite IH, string_drop_0, string_app_assoc. reflexivity.
Qed.

(** X1.  The fields [read_values_of_line] returns, joined by the value
    delimiter, are the line without its terminator: splitting loses no
    character and adds none. *)
Theorem fields_join_back {PF : PyFloat} (cfg : config) (line : string)
    (values : list string) :
  read_values_of_line cfg line = Ok values ->
  Py.join (INPUT_FILE_VALUE_DELIMITER cfg) values = stripped line.
Proof.
  intros H. apply read_values_ok in H. destruct H as [-> Hd].
  unfold fields, stripped. rewrite split_from_join; [reflexivity|].
  unfold delimiters_ok in Hd. apply andb_true_iff in Hd. destruct Hd as [_ Hne].
  intros E. rewrite E in Hne. discriminate.
Qed.




Lemma read_values_by_fields {PF : PyFloat} (cfg : config) (line line' : string) :
  fields cfg line = fields cfg line' ->
  read_values_of_line cfg line = read_values_of_line cfg line'.
Proof.
  unfold read_values_of_line, fields, Py.split. intros H.
  destruct (String.eqb _ _); [reflexivity|].
  destruct (INPUT_FILE_VALUE_DELIMITER cfg); [reflexivity|]. now rewrite H.
Qed.

(** X3.  A run depends on its lines through their fields only: two
    streams whose lines have the same fields, one by one, give the same
    result, the same buffer and the same output file. *)
Theorem run_by_fields {PF : PyFloat} (cfg : config) (columns_indexes : list Z)
    (lines lines' : list string) :
  Forall2 (fun line line' => fields cfg line = fields cfg line') lines lines' ->
  forall line_index st,
    create_dataset_loop cfg columns_indexes line_index lines st
    = create_dataset_loop cfg columns_indexes line_index lines' st.
Proof.
  induction 1 as [|line line' lines lines' Hf _ IH]; intros line_index st; [reflexivity|].
  cbn [create_dataset_loop].
  destruct (lines_to_build_reached cfg st); [reflexivity|].
  unfold bind.
  replace (process_line cfg columns_indexes line_index line st)
    with (process_line cfg columns_indexes line_index line' st)
    by (unfold process_line, bind, lift;
        now rewrite (read_values_by_fields cfg line line' Hf)).
  destruct (process_line cfg columns_indexes line_index line' st) as [[[]|f] st1];
    [apply IH | reflexivity].
Qed.

(** ** Converting a field *)




(** ** Formatting a row, reading the headers, resolving the selectors *)

Lemma format_items_snoc (l : list string) (val : string) :
  forall val_idx,
    format_items val_idx (l ++ [val])
    = format_items val_idx l
        ++ [String.append (Py.str_int (val_idx + Z.of_nat (List.length l) + 1))
              (String.append ": " val)].
Proof.
  induction l as [|v l IH]; intros val_idx.
  - cbn. now rewrite Z.add_0_r.
  - cbn [List.app format_items List.length]. rewrite IH. cbn [List.app].
    replace (val_idx + 1 + Z.of_nat (List.length l) + 1)
      with (val_idx + Z.of_nat (S (List.length l)) + 1) by lia.
    reflexivity.
Qed.

(** X5.  [format_list] of a list with one more item at its end is
    [format_list] of the list followed, two spaces apart when the list
    is not empty, by the position of the new item counted from 1, a
    colon, a space and the item; the empty list gives the empty
    string. *)
Theorem format_list_numbers (list_to_format : list string) (val : string) :
  format_list (list_to_format ++ [val])
  = String.append (format_list list_to_format)
      (String.append (match list_to_format with [] => EmptyString | _ => "  "%string end)
         (String.append (Py.str_int (Z.of_nat (List.length list_to_format) + 1))
            (String.append ": " val)))
  /\ format_list [] = EmptyString.
Proof.
  split; [|reflexivity].
  unfold format_list. rewrite format_items_snoc, join_snoc.
  destruct list_to_format; reflexivity.
Qed.

(** X6.  [get_headers] reads nothing when headers are declared absent.
    When they are declared present and the delimiters let a line be
    split, it takes exactly the first line off the stream (the empty
    line from an empty stream) and returns its fields, never failing,
    and the warning is logged exactly when the last of these fields
    converts to a float; with equal delimiters it fails before the
    stream is looked at further. *)
Theorem get_headers_outcome {PF : PyFloat} (cfg : config) (file : list string) :
  (INPUT_FILE_HAS_HEADERS cfg = false -> get_headers cfg file = Ok (None, file, false))
  /\ (INPUT_FILE_HAS_HEADERS cfg = true -> delimiters_ok cfg = true ->
      get_headers cfg file
      = Ok (Some (fields cfg (hd EmptyString file)), tl file,
            match float_of_str
                    (Py.replace (INPUT_FILE_DECIMAL_DELIMITER cfg) "."
                       (last (fields cfg (hd EmptyString file)) EmptyString)) with
            | Some _ => true
            | None => false
            end))
  /\ (INPUT_FILE_HAS_HEADERS cfg = true ->
      INPUT_FILE_VALUE_DELIMITER cfg = INPUT_FILE_DECIMAL_DELIMITER cfg ->
      get_headers cfg file
      = Fail (SystemExit ConfigurationError delimiters_equal_message)).
Proof.
  split; [|split].
  - intros Hh. unfold get_headers. now rewrite Hh.
  - intros Hh Hd. unfold get_headers. rewrite Hh. cbn [negb].
    assert (Hread : readline file = (hd EmptyString file, tl file))
      by (destruct file; reflexivity).
    rewrite Hread, (read_values_total cfg _ Hd).
    rewrite (getitem_minus_one _ EmptyString (fields_not_nil cfg _)).
    unfold convert_to_float. destruct (float_of_str _); reflexivity.
  - intros Hh Heq. unfold get_headers. rewrite Hh. cbn [negb].
    destruct (readline file) as [first_line file'].
    now rewrite (read_values_equal_delimiters cfg first_line Heq).
Qed.

Lemma resolve_labels_length (headers : list string) (columns : list selector) :
  forall columns_indexes,
    resolve_labels headers columns = Ok columns_indexes ->
    List.length columns_indexes = List.length columns
    /\ Forall (fun i => 0 <= i < Z.of_nat (List.length headers)) columns_indexes.
Proof.
  intros columns_indexes H. apply resolve_labels_ok in H.
  induction H as [|c i cs idxs [label [-> Hi]] _ [IHlen IHall]].
  - split; [reflexivity | constructor].
  - split; [cbn; now rewrite IHlen|]. constructor; [|exact IHall].
    apply index_some in Hi. destruct Hi as [H0 [Hnth _]].
    assert (Z.to_nat i < List.length headers)%nat
      by (apply nth_error_Some; congruence).
    lia.
Qed.

(** X7.  When [get_columns_indexes_to_keep] returns, it gives one index
    per selector, in order, and at least one; for integer selectors the
    indexes are the selectors minus one whatever the headers; for labels
    every index is a position of the header row.  An empty list of
    selectors is the only way to the message asking to set
    COLUMNS_TO_KEEP. *)
Theorem columns_indexes_shape (cfg : config) (headers : option (list string)) :
  (forall columns_indexes,
      get_columns_indexes_to_keep cfg headers = Ok columns_indexes ->
      List.length columns_indexes = List.length (COLUMNS_TO_KEEP cfg)
      /\ columns_indexes <> []
      /\ (forall ns, all_int (COLUMNS_TO_KEEP cfg) = Some ns ->
                     columns_indexes = map (fun n => n - 1) ns
                     /\ COLUMNS_TO_KEEP cfg = map Index ns)
      /\ (all_int (COLUMNS_TO_KEEP cfg) = None ->
          exists hs,
            headers = Some hs /\ INPUT_FILE_HAS_HEADERS cfg = true
            /\ Forall (fun i => 0 <= i < Z.of_nat (List.length hs)) columns_indexes))
  /\ (get_columns_indexes_to_keep cfg headers
      = Fail (SystemExit ConfigurationError "Please set parameter COLUMNS_TO_KEEP")
      <-> COLUMNS_TO_KEEP cfg = []).
Proof.
  unfold get_columns_indexes_to_keep. split.
  - intros columns_indexes H.
    destruct (COLUMNS_TO_KEEP cfg) as [|c l] eqn:Ecols; [discriminate|].
    destruct (all_int (c :: l)) as [ns|] eqn:Hint.
    + inversion H; subst. pose proof (all_int_map _ _ Hint) as Hmap.
      assert (Hlen : List.length (map (fun n => n - 1) ns) = List.length (c :: l))
        by (rewrite Hmap, !length_map; reflexivity).
      split; [exact Hlen|]. split.
      { intros E. rewrite E in Hlen. discriminate. }
      split; [|discriminate].
      intros ns' E. inversion E; subst. split; [reflexivity | exact Hmap].
    + destruct (INPUT_FILE_HAS_HEADERS cfg) eqn:Hh; [|discriminate]. cbn [negb] in H.
      destruct headers as [hs|]; [|discriminate].
      destruct (resolve_labels_length hs (c :: l) columns_indexes H) as [Hlen Hall].
      split; [exact Hlen|]. split.
      { intros E. rewrite E in Hlen. discriminate. }
      split; [discriminate|]. intros _. exists hs. auto.
  - destruct (COLUMNS_TO_KEEP cfg) as [|c l] eqn:Ecols.
    + split; reflexivity.
    + split; [|discriminate]. intros H. exfalso.
      destruct (all_int (c :: l)); [discriminate|].
      destruct (INPUT_FILE_HAS_HEADERS cfg); cbn [negb] in H; [|discriminate].
      destruct headers as [hs|]; [|discriminate].
      assert (Hk : forall cs idx f,
                 resolve_labels hs cs = Fail f ->
                 f <> SystemExit ConfigurationError idx).
      { induction cs as [|c0 cs IHcs]; cbn [resolve_labels]; intros idx f Hf;
          [discriminate|].
        destruct c0 as [n|label].
        - inversion Hf. discriminate.
        - destruct (Py.index hs label).
          + destruct (resolve_labels hs cs) eqn:Hr; [discriminate|].
            inversion Hf; subst. eapply IHcs; reflexivity.
          + inversion Hf. discriminate. }
      eapply Hk; [exact H | reflexivity].
Qed.

(** ** Reading a column *)

(** X8.  A negative column index counts from the end of the row: the
    test for a short row never fires on it; when it reaches no further
    back than the first field, the field read is the one that many
    places from the end, and the step does what the conversion of that
    field does; when it reaches further back, the step raises an
    IndexError that nothing catches, and the buffer is left as it is. *)
Theorem negative_index {PF : PyFloat} (cfg : config) (line_index : Z)
    (values : list string) (idx : Z) (st : state) :
  idx < 0 ->
  (- Z.of_nat (List.length values) <= idx ->
   exists value_str,
     nth_error values (Z.to_nat (Z.of_nat (List.length values) + idx)) = Some value_str
     /\ keep_column cfg line_index values idx st
        = match convert_to_float cfg value_str (Some line_index) false with
          | Ok x => (Ok tt, buffer_extend [str_of_float x] st)
          | Fail f => (Fail f, st)
          end)
  /\ (idx < - Z.of_nat (List.length values) ->
      keep_column cfg line_index values idx st = (Fail (Uncaught IndexError), st)).
Proof.
  intros Hneg.
  assert (Hshort : (Z.of_nat (List.length values) <=? idx) = false)
    by (apply Z.leb_gt; lia).
  assert (Hsign : (0 <=? idx) = false) by (apply Z.leb_gt; lia).
  unfold keep_column, Py.getitem. rewrite Hshort, Hsign. split.
  - intros Hin.
    replace (0 <=? idx + Z.of_nat (List.length values)) with true
      by (symmetry; apply Z.leb_le; lia).
    replace (idx + Z.of_nat (List.length values))
      with (Z.of_nat (List.length values) + idx) by lia.
    destruct (nth_error values (Z.to_nat (Z.of_nat (List.length values) + idx)))
      as [value_str|] eqn:Hn.
    + exists value_str. split; [reflexivity|].
      unfold bind, lift.
      destruct (convert_to_float cfg value_str (Some line_index) false); reflexivity.
    + apply nth_error_None in Hn. lia.
  - intros Hout.
    replace (0 <=? idx + Z.of_nat (List.length values)) with false
      by (symmetry; apply Z.leb_gt; lia).
    reflexivity.
Qed.

(** ** The loop, pass after pass *)

Lemma loop_split {PF : PyFloat} (cfg : config) (columns_indexes : list Z)
    (lines more : list string) :
  forall line_index st,
    create_dataset_loop cfg columns_indexes line_index (lines ++ more) st
    = match create_dataset_loop cfg columns_indexes line_index lines st with
      | (Ok _, st1) =>
          create_dataset_loop cfg columns_indexes
            (line_index + Z.of_nat (List.length lines)) more st1
      | (Fail f, st1) => (Fail f, st1)
      end.
Proof.
  induction lines as [|line lines IH]; intros line_index st.
  - cbn. now rewrite Z.add_0_r.
  - cbn [List.app create_dataset_loop List.length].
    destruct (lines_to_build_reached cfg st) eqn:Hreached.
    + destruct more as [|line' more]; [reflexivity|].
      cbn [create_dataset_loop]. now rewrite Hreached.
    + unfold bind.
      destruct (process_line cfg columns_indexes line_index line st) as [[[]|f] st1];
        [|reflexivity].
      rewrite IH.
      replace (line_index + 1 + Z.of_nat (List.length lines))
        with (line_index + Z.of_nat (S (List.length lines))) by lia.
      reflexivity.
Qed.

(** X9.  Going through a stream is going through its first lines and
    then, from the state and the line index reached, through the others;
    a failure among the first lines is the failure of the whole, with
    the same state, and what a run from the start returns on the first
    lines is where the run on the whole stream goes on from. *)
Theorem loop_app {PF : PyFloat} (cfg : config) (columns_indexes : list Z)
    (lines more : list string) :
  (forall line_index st,
      create_dataset_loop cfg columns_indexes line_index (lines ++ more) st
      = match create_dataset_loop cfg columns_indexes line_index lines st with
        | (Ok _, st1) =>
            create_dataset_loop cfg columns_indexes
              (line_index + Z.of_nat (List.length lines)) more st1
        | (Fail f, st1) => (Fail f, st1)
        end)
  /\ (forall f st,
         create_dataset cfg lines columns_indexes = (Fail f, st) ->
         create_dataset cfg (lines ++ more) columns_indexes = (Fail f, st))
  /\ (forall st,
         create_dataset cfg lines columns_indexes = (Ok tt, st) ->
         create_dataset cfg (lines ++ more) columns_indexes
         = create_dataset_loop cfg columns_indexes
             (first_line_index cfg + Z.of_nat (List.length lines)) more st).
Proof.
  split; [apply loop_split|]. unfold create_dataset. split.
  - intros f st H. now rewrite loop_split, H.
  - intros st H. now rewrite loop_split, H.
Qed.

Lemma loop_output_grows {PF : PyFloat} (cfg : config) (columns_indexes : list Z)
    (lines : list string) :
  forall line_index st r st',
    create_dataset_loop cfg columns_indexes line_index lines st = (r, st') ->
    (exists written, output_file st' = String.append (output_file st) written)
    /\ nb_lines_built st <= nb_lines_built st'
    /\ (forall L, LINES_TO_BUILD cfg = Lines L ->
                  nb_lines_built st <= L -> nb_lines_built st' <= L).
Proof.
  assert (Hpass : forall line_index line st r st',
             process_line cfg columns_indexes line_index line st = (r, st') ->
             (exists written, output_file st' = String.append (output_file st) written)
             /\ nb_lines_built st <= nb_lines_built st' <= nb_lines_built st + 1).
  { intros line_index line st r st'. unfold process_line, bind, lift.
    destruct (read_values_of_line cfg line) as [values|f0].
    2:{ intros H; inversion H; subst. split; [exists EmptyString|lia].
        now rewrite string_app_nil_r. }
    destruct (build_buffer_extends cfg columns_indexes line_index values st)
      as [r1 [vs E]]. rewrite E.
    destruct r1 as [[]|f1].
    2:{ intros H; inversion H; subst. cbn. split; [exists EmptyString|lia].
        now rewrite string_app_nil_r. }
    unfold write_if_complete, write_line.
    destruct (Nat.eqb _ 0).
    { intros H; inversion H; subst. cbn. split; [exists EmptyString|lia].
      now rewrite string_app_nil_r. }
    destruct (_ =? _); intros H; inversion H; subst; cbn.
    - split; [eexists; reflexivity | lia].
    - split; [exists EmptyString; now rewrite string_app_nil_r | lia]. }
  induction lines as [|line lines IH]; intros line_index st r st' Hrun.
  - inversion Hrun; subst. split; [exists EmptyString; now rewrite string_app_nil_r|].
    split; [lia | auto].
  - cbn [create_dataset_loop] in Hrun.
    destruct (lines_to_build_reached cfg st) eqn:Hreached.
    { inversion Hrun; subst.
      split; [exists EmptyString; now rewrite string_app_nil_r|]. split; [lia | auto]. }
    unfold bind in Hrun.
    destruct (process_line cfg columns_indexes line_index line st)
      as [r1 st1] eqn:Hp.
    destruct (Hpass _ _ _ _ _ Hp) as [[w1 Hw1] Hnb1].
    assert (Hlim : forall L, LINES_TO_BUILD cfg = Lines L -> nb_lines_built st1 <= L).
    { intros L HL. unfold lines_to_build_reached in Hreached. rewrite HL in Hreached.
      apply Z.leb_gt in Hreached. lia. }
    destruct r1 as [[]|f].
    + destruct (IH _ _ _ _ Hrun) as [[w2 Hw2] [Hnb2 HL2]].
      split; [exists (String.append w1 w2); now rewrite Hw2, Hw1, string_app_assoc|].
      split; [lia|]. intros L HL _. apply (HL2 L HL). now apply Hlim.
    + inversion Hrun; subst. split; [eauto|]. split; [lia|].
      intros L HL _. now apply Hlim.
Qed.

(** X10.  A run only ever appends to the output file and only ever
    counts up: what the first lines of a stream have written is the
    beginning of what the whole stream writes, however either run
    ends. *)
Theorem output_append_only {PF : PyFloat} (cfg : config) (columns_indexes : list Z)
    (lines more : list string) (r r' : result unit) (st st' : state) :
  create_dataset cfg lines columns_indexes = (r, st) ->
  create_dataset cfg (lines ++ more) columns_indexes = (r', st') ->
  (exists written, output_file st' = String.append (output_file st) written)
  /\ nb_lines_built st <= nb_lines_built st'.
Proof.
  unfold create_dataset. intros H1 H2. rewrite loop_split, H1 in H2.
  destruct r as [[]|f].
  - destruct (loop_output_grows cfg columns_indexes more _ _ _ _ H2) as [Hw [Hnb _]].
    split; assumption.
  - inversion H2; subst. split; [exists EmptyString; now rewrite string_app_nil_r | lia].
Qed.


(** X12.  Once the row limit is reached the rest of the stream is not
    read: whatever follows, be it lines that could not be split or
    converted, the run returns, in the same state. *)
Theorem lines_after_limit_ignored {PF : PyFloat} (cfg : config)
    (columns_indexes : list Z) (lines more : list string) (st : state) :
  create_dataset cfg lines columns_indexes = (Ok tt, st) ->
  lines_to_build_reached cfg st = true ->
  create_dataset cfg (lines ++ more) columns_indexes = (Ok tt, st).
Proof.
  unfold create_dataset. intros Hrun Hreached. rewrite loop_split, Hrun.
  destruct more as [|line more]; [reflexivity|].
  cbn [create_dataset_loop]. now rewrite Hreached.
Qed.

(** X13.  A line that downsampling skips is split but not looked into:
    whatever its fields, too few or not numbers, the pass returns and,
    unless the buffer already has the length of a window, leaves the
    state as it is. *)
Theorem skipped_line_not_validated {PF : PyFloat} (cfg : config)
    (columns_indexes : list Z) (line_index : Z) (line : string) (st : state) :
  delimiters_ok cfg = true -> DOWNSAMPLE_FACTOR cfg <> 0 -> columns_indexes <> [] ->
  line_index mod DOWNSAMPLE_FACTOR cfg <> 0 ->
  (exists st', process_line cfg columns_indexes line_index line st = (Ok tt, st'))
  /\ (Z.of_nat (List.length (tmp_buffer st)) <> threshold cfg columns_indexes ->
      process_line cfg columns_indexes line_index line st = (Ok tt, st)).
Proof.
  intros Hd HF Hc Hskip.
  assert (Hrows : line_rows cfg columns_indexes line_index line = Some []).
  { unfold line_rows, participates. apply Z.eqb_neq in Hskip. now rewrite Hskip. }
  split; [eapply process_line_total; eauto|].
  intros Hlen. unfold process_line, bind, lift.
  rewrite (read_values_total cfg line Hd).
  rewrite (build_buffer_total cfg columns_indexes line_index line st [] HF Hrows).
  cbn [List.concat]. rewrite buffer_extend_nil.
  unfold write_if_complete. destruct columns_indexes as [|i l]; [congruence|].
  cbn [List.length Nat.eqb]. unfold threshold in Hlen. cbn [List.length] in Hlen.
  apply Z.eqb_neq in Hlen. now rewrite Hlen.
Qed.

(** ** Uncaught exceptions *)

Lemma getitem_in_range {A : Type} (l : list A) (i : Z) :
  - Z.of_nat (List.length l) <= i < Z.of_nat (List.length l) ->
  exists x, Py.getitem l i = Some x.
Proof.
  intros Hr. unfold Py.getitem.
  destruct (0 <=? i) eqn:Hi.
  - apply Z.leb_le in Hi.
    destruct (nth_error l (Z.to_nat i)) as [x|] eqn:Hn; [eauto|].
    apply nth_error_None in Hn. lia.
  - apply Z.leb_gt in Hi.
    replace (0 <=? i + Z.of_nat (List.length l)) with true
      by (symmetry; apply Z.leb_le; lia).
    destruct (nth_error l (Z.to_nat (i + Z.of_nat (List.length l)))) as [x|] eqn:Hn;
      [eauto|].
    apply nth_error_None in Hn. lia.
Qed.

Lemma read_values_uncaught {PF : PyFloat} (cfg : config) (line : string)
    (e : py_exception) :
  read_values_of_line cfg line = Fail (Uncaught e) ->
  e = ValueError /\ INPUT_FILE_VALUE_DELIMITER cfg = EmptyString.
Proof.
  unfold read_values_of_line, Py.split.
  destruct (String.eqb _ _); [discriminate|].
  destruct (INPUT_FILE_VALUE_DELIMITER cfg); [|discriminate].
  intros H; inversion H. split; reflexivity.
Qed.

Lemma convert_to_float_exits {PF : PyFloat} (cfg : config) (value_str : string)
    (line_number : option Z) (e : py_exception) :
  convert_to_float cfg value_str line_number false <> Fail (Uncaught e).
Proof.
  unfold convert_to_float. destruct (float_of_str _); [discriminate|].
  cbn [negb]. destruct (_ && _); [discriminate|].
  destruct (_ && _); discriminate.
Qed.

Lemma keep_column_uncaught {PF : PyFloat} (cfg : config) (line_index : Z)
    (values : list string) (idx : Z) (st st' : state) (e : py_exception) :
  values <> [] ->
  keep_column cfg line_index values idx st = (Fail (Uncaught e), st') ->
  e = IndexError /\ idx < -1.
Proof.
  intros Hne. unfold keep_column.
  destruct (Z.of_nat (List.length values) <=? idx) eqn:Hshort.
  { destruct (line_index <=? 2); discriminate. }
  apply Z.leb_gt in Hshort.
  destruct (Py.getitem values idx) as [value_str|] eqn:Hget.
  - unfold bind, lift.
    destruct (convert_to_float cfg value_str (Some line_index) false) as [x|f] eqn:Hc;
      [discriminate|].
    intros H; inversion H; subst. exfalso. eapply convert_to_float_exits; eauto.
  - intros H; inversion H; subst. split; [reflexivity|].
    destruct (Z_lt_ge_dec idx (-1)) as [Hlt|Hge]; [exact Hlt|]. exfalso.
    assert (0 < List.length values)%nat by (destruct values; [congruence | cbn; lia]).
    destruct (getitem_in_range values idx) as [x Hx]; [lia | congruence].
Qed.

Lemma for_each_keep_uncaught {PF : PyFloat} (cfg : config) (line_index : Z)
    (values : list string) (columns_indexes : list Z) (e : py_exception) :
  values <> [] ->
  forall st st',
    for_each columns_indexes (keep_column cfg line_index values) st
    = (Fail (Uncaught e), st') ->
    e = IndexError /\ exists idx, In idx columns_indexes /\ idx < -1.
Proof.
  intros Hne. induction columns_indexes as [|i l IH]; intros st st' H; [discriminate|].
  cbn [for_each] in H. unfold bind in H.
  destruct (keep_column cfg line_index values i st) as [[[]|f] st1] eqn:Hk.
  - destruct (IH _ _ H) as [He [idx [Hin Hlt]]].
    split; [exact He|]. exists idx. split; [now right | exact Hlt].
  - inversion H; subst.
    destruct (keep_column_uncaught cfg _ _ _ _ _ _ Hne Hk) as [He Hlt].
    split; [exact He|]. exists i. split; [now left | exact Hlt].
Qed.

Lemma loop_uncaught {PF : PyFloat} (cfg : config) (columns_indexes : list Z)
    (lines : list string) (e : py_exception) :
  columns_indexes <> [] ->
  forall line_index st st',
    create_dataset_loop cfg columns_indexes line_index lines st
    = (Fail (Uncaught e), st') ->
    (e = ValueError /\ INPUT_FILE_VALUE_DELIMITER cfg = EmptyString)
    \/ (e = ZeroDivisionError /\ DOWNSAMPLE_FACTOR cfg = 0)
    \/ (e = IndexError /\ exists idx, In idx columns_indexes /\ idx < -1).
Proof.
  intros Hc. induction lines as [|line lines IH]; intros line_index st st' H;
    [discriminate|].
  cbn [create_dataset_loop] in H.
  destruct (lines_to_build_reached cfg st); [discriminate|].
  unfold bind in H.
  destruct (process_line cfg columns_indexes line_index line st) as [[[]|f] st1] eqn:Hp;
    [eapply IH; eauto|].
  inversion H; subst. clear H. unfold process_line, bind, lift in Hp.
  destruct (read_values_of_line cfg line) as [values|f0] eqn:Hread.
  2:{ inversion Hp; subst. left. eapply read_values_uncaught; eauto. }
  apply read_values_ok in Hread. destruct Hread as [-> _].
  unfold build_buffer in Hp.
  destruct (DOWNSAMPLE_FACTOR cfg =? 0) eqn:HF.
  { inversion Hp; subst. right; left. split; [reflexivity|]. now apply Z.eqb_eq. }
  destruct (line_index mod DOWNSAMPLE_FACTOR cfg =? 0).
  - destruct (for_each columns_indexes (keep_column cfg line_index (fields cfg line)) st)
      as [[[]|f1] st2] eqn:Hfor.
    + unfold write_if_complete, write_line in Hp.
      destruct columns_indexes; [congruence|]. cbn [List.length Nat.eqb] in Hp.
      match type of Hp with context [if ?c then _ else _] => destruct c end;
        discriminate.
    + inversion Hp; subst. right; right.
      eapply for_each_keep_uncaught; [apply fields_not_nil | exact Hfor].
  - unfold ret, write_if_complete, write_line in Hp.
    destruct columns_indexes; [congruence|]. cbn [List.length Nat.eqb] in Hp.
    match type of Hp with context [if ?c then _ else _] => destruct c end;
      discriminate.
Qed.

Lemma get_columns_origin (cfg : config) (headers : option (list string))
    (columns_indexes : list Z) :
  get_columns_indexes_to_keep cfg headers = Ok columns_indexes ->
  columns_indexes <> []
  /\ forall idx, In idx columns_indexes -> idx < -1 ->
                 exists n, In (Index n) (COLUMNS_TO_KEEP cfg) /\ n < 0.
Proof.
  unfold get_columns_indexes_to_keep. intros H.
  destruct (COLUMNS_TO_KEEP cfg) as [|c l] eqn:Ecols; [discriminate|].
  destruct (all_int (c :: l)) as [ns|] eqn:Hint.
  - inversion H; subst. pose proof (all_int_map _ _ Hint) as Hmap. split.
    + destruct ns; [discriminate | cbn; discriminate].
    + intros idx Hin Hlt. apply in_map_iff in Hin. destruct Hin as [n [<- Hn]].
      exists n. split; [|lia]. rewrite Hmap. now apply in_map.
  - destruct (INPUT_FILE_HAS_HEADERS cfg); cbn [negb] in H; [|discriminate].
    destruct headers as [hs|]; [|discriminate].
    destruct (resolve_labels_length hs (c :: l) columns_indexes H) as [Hlen Hall].
    split.
    + intros E. rewrite E in Hlen. discriminate.
    + intros idx Hin Hlt. rewrite Forall_forall in Hall. specialize (Hall idx Hin). lia.
Qed.

Lemma main_uncaught {PF : PyFloat} (cfg : config) (lines : list string)
    (e : py_exception) (st : state) :
  main cfg lines = (Fail (Uncaught e), st) ->
  match e with
  | ValueError => INPUT_FILE_VALUE_DELIMITER cfg = EmptyString
  | ZeroDivisionError => DOWNSAMPLE_FACTOR cfg = 0
  | IndexError => exists n, In (Index n) (COLUMNS_TO_KEEP cfg) /\ n < 0
  | AttributeError => False
  end.
Proof.
  unfold main. intros H.
  destruct (get_headers cfg lines) as [[[headers rest] warned]|f] eqn:Hh.
  2:{ inversion H; subst. unfold get_headers in Hh.
      destruct (negb (INPUT_FILE_HAS_HEADERS cfg)); [discriminate|].
      destruct (readline lines) as [first_line file'].
      destruct (read_values_of_line cfg first_line) as [values|f0] eqn:Hread.
      - pose proof Hread as Hread'. apply read_values_ok in Hread'.
        destruct Hread' as [-> _].
        rewrite (getitem_minus_one _ EmptyString (fields_not_nil cfg _)) in Hh.
        discriminate.
      - inversion Hh; subst.
        destruct (read_values_uncaught cfg _ _ Hread) as [-> Hsep]. exact Hsep. }
  destruct (get_columns_indexes_to_keep cfg headers) as [columns_indexes|f] eqn:Hc.
  - destruct (get_columns_origin cfg headers columns_indexes Hc) as [Hne Horigin].
    unfold create_dataset in H.
    destruct (loop_uncaught cfg columns_indexes rest e Hne _ _ _ H)
      as [[-> Hsep] | [[-> HF] | [-> [idx [Hin Hlt]]]]];
      [exact Hsep | exact HF | now apply (Horigin idx)].
  - inversion H; subst. unfold get_columns_indexes_to_keep in Hc.
    destruct (COLUMNS_TO_KEEP cfg); [discriminate|].
    destruct (all_int _); [discriminate|].
    destruct (INPUT_FILE_HAS_HEADERS cfg) eqn:Hhh; cbn [negb] in Hc; [|discriminate].
    destruct headers as [hs|].
    + exfalso. clear -Hc.
      assert (Hk : forall cs f, resolve_labels hs cs = Fail f -> f <> Uncaught e).
      { induction cs as [|c0 cs IHcs]; cbn [resolve_labels]; intros f Hf; [discriminate|].
        destruct c0 as [n|label].
        - inversion Hf. discriminate.
        - destruct (Py.index hs label).
          + destruct (resolve_labels hs cs) eqn:Hr; [discriminate|].
            inversion Hf; subst. eapply IHcs; reflexivity.
          + inversion Hf. discriminate. }
      eapply Hk; [exact Hc | reflexivity].
    + unfold get_headers in Hh. rewrite Hhh in Hh. cbn [negb] in Hh.
      destruct (readline lines) as [first_line file'].
      destruct (read_values_of_line cfg first_line); [|discriminate].
      destruct (Py.getitem _ _); discriminate.
Qed.

(** X14.  A ZeroDivisionError gets out of the main sequence only when the
    downsample factor is zero (the division of l.174 is never by zero,
    the list of columns being never empty), and an IndexError only when
    some integer selector is negative.  With a factor of zero the first
    line the loop goes through raises the ZeroDivisionError, once split,
    and leaves the state as it is. *)
Theorem uncaught_exceptions {PF : PyFloat} (cfg : config) :
  (forall lines st,
      main cfg lines = (Fail (Uncaught ZeroDivisionError), st) ->
      DOWNSAMPLE_FACTOR cfg = 0)
  /\ (forall lines st,
         main cfg lines = (Fail (Uncaught IndexError), st) ->
         exists n, In (Index n) (COLUMNS_TO_KEEP cfg) /\ n < 0)
  /\ (DOWNSAMPLE_FACTOR cfg = 0 -> delimiters_ok cfg = true ->
      forall columns_indexes line_index line rest st,
        lines_to_build_reached cfg st = false ->
        create_dataset_loop cfg columns_indexes line_index (line :: rest) st
        = (Fail (Uncaught ZeroDivisionError), st)).
Proof.
  split; [|split].
  - intros lines st H. exact (main_uncaught cfg lines ZeroDivisionError st H).
  - intros lines st H. exact (main_uncaught cfg lines IndexError st H).
  - intros HF Hd columns_indexes line_index line rest st Hlimit.
    cbn [create_dataset_loop]. rewrite Hlimit.
    unfold bind, process_line, bind, lift.
    rewrite (read_values_total cfg line Hd). unfold build_buffer.
    rewrite HF. reflexivity.
Qed.

(** ** The output as a function of the input *)

Section Windows.

Context {A : Type}.
Variable size : nat.
Hypothesis size_pos : (1 <= size)%nat.

Lemma take_windows_enough (fuel1 : nat) :
  forall fuel2 (rows : list A),
    (List.length rows <= fuel1)%nat -> (List.length rows <= fuel2)%nat ->
    take_windows fuel1 size rows = take_windows fuel2 size rows.
Proof.
  induction fuel1 as [|f1 IH]; intros fuel2 rows H1 H2.
  - destruct rows; [|cbn in H1; lia].
    destruct fuel2; [reflexivity|]. cbn [take_windows List.length].
    replace (size <=? 0)%nat with false by (symmetry; apply Nat.leb_gt; lia).
    reflexivity.
  - cbn [take_windows]. destruct (size <=? List.length rows)%nat eqn:Hs.
    + apply Nat.leb_le in Hs. destruct fuel2 as [|f2]; [lia|].
      cbn [take_windows]. apply Nat.leb_le in Hs. rewrite Hs. apply Nat.leb_le in Hs.
      rewrite (IH f2 (skipn size rows)); [reflexivity | |];
        rewrite length_skipn; lia.
    + destruct fuel2 as [|f2]; [reflexivity|]. cbn [take_windows]. now rewrite Hs.
Qed.

Lemma windows_of_short (rows : list A) :
  (List.length rows < size)%nat -> windows_of size rows = ([], rows).
Proof.
  intros H. unfold windows_of. destruct (List.length rows) eqn:E; [reflexivity|].
  cbn [take_windows]. rewrite E.
  replace (size <=? S n)%nat with false by (symmetry; apply Nat.leb_gt; lia).
  reflexivity.
Qed.

Lemma windows_of_app (windows : list (list A)) (tail : list A) :
  Forall (fun w => List.length w = size) windows ->
  windows_of size (List.concat windows ++ tail)
  = (windows ++ fst (windows_of size tail), snd (windows_of size tail)).
Proof.
  induction 1 as [|w windows Hw _ IH].
  - cbn [List.concat List.app]. apply surjective_pairing.
  - cbn [List.concat]. rewrite <- app_assoc. unfold windows_of at 1.
    rewrite length_app, Hw.
    replace (size + List.length (List.concat windows ++ tail))%nat
      with (S (Nat.pred size + List.length (List.concat windows ++ tail))) by lia.
    cbn [take_windows]. rewrite length_app, Hw.
    replace (size <=? size + List.length (List.concat windows ++ tail))%nat with true
      by (symmetry; apply Nat.leb_le; lia).
    assert (Hskip : forall l, skipn size (w ++ l) = l).
    { intros l. rewrite skipn_app, <- Hw, skipn_all, Nat.sub_diag. reflexivity. }
    assert (Hfirst : forall l, firstn size (w ++ l) = w).
    { intros l. rewrite firstn_app, <- Hw, firstn_all, Nat.sub_diag.
      cbn [firstn]. apply app_nil_r. }
    rewrite Hskip, Hfirst.
    rewrite (take_windows_enough _ (List.length (List.concat windows ++ tail)))
      by lia.
    fold (windows_of size (List.concat windows ++ tail)). rewrite IH. reflexivity.
Qed.

End Windows.

Lemma reachable_reached_empty {PF : PyFloat} (cfg : config) (columns_indexes : list Z)
    (line_index : Z) (st : state) :
  reachable cfg columns_indexes line_index st ->
  lines_to_build_reached cfg st = true -> tmp_buffer st = [].
Proof.
  induction 1 as [|line_index st line st' Hr _ Hnot Hpass]; [reflexivity|].
  intros Hreached.
  destruct (reachable_Inv cfg columns_indexes line_index st Hr)
    as [windows [pending [HI _]]].
  destruct (process_line_ok cfg columns_indexes _ _ _ _ _ _ HI Hpass)
    as [_ [_ [_ [rows [_ [[_ [_ [Hbuf _]]] | [_ [Hnb _]]]]]]]].
  - exact Hbuf.
  - unfold lines_to_build_reached in *. rewrite Hnb in Hreached. congruence.
Qed.

Lemma rows_values_app {PF : PyFloat} (cfg : config) (columns_indexes : list Z)
    (l1 l2 : list string) :
  rows_values cfg columns_indexes (l1 ++ l2)
  = match rows_values cfg columns_indexes l1, rows_values cfg columns_indexes l2 with
    | Some v1, Some v2 => Some (v1 ++ v2)
    | _, _ => None
    end.
Proof.
  induction l1 as [|line l1 IH]; cbn [List.app rows_values].
  - destruct (rows_values cfg columns_indexes l2); reflexivity.
  - destruct (selected_values cfg (fields cfg line) columns_indexes); [|reflexivity].
    rewrite IH. destruct (rows_values cfg columns_indexes l1); [|reflexivity].
    destruct (rows_values cfg columns_indexes l2); reflexivity.
Qed.

Lemma concat_rows_nil (columns_indexes : list Z) {PF : PyFloat}
    (rows : list (list string)) :
  columns_indexes <> [] -> Forall (row_ok columns_indexes) rows ->
  List.concat rows = [] -> rows = [].
Proof.
  intros Hc Hrows Hnil. destruct rows as [|vs rows]; [reflexivity|]. exfalso.
  inversion Hrows as [|? ? [Hlen _] _]; subst. cbn in Hnil.
  apply app_eq_nil in Hnil. destruct Hnil as [-> _].
  destruct columns_indexes; [congruence | discriminate].
Qed.

(** X15.  On a stream whose participating lines can all be read, with a
    buffer size of at least one and a row limit that is not negative,
    the run returns and its final state is a function of the rows of
    those lines: cut into consecutive windows of [BUFFER_SIZE] rows, the
    complete windows (the first [L] of them under a limit [L]) are the
    lines of the output file, and the rows after the last complete
    window are what is left in the buffer (nothing once a limit is
    reached). *)
Theorem run_closed_form {PF : PyFloat} (cfg : config) (columns_indexes : list Z)
    (lines : list string) (vss : list (list string)) :
  1 <= BUFFER_SIZE cfg ->
  (forall L, LINES_TO_BUILD cfg = Lines L -> 0 <= L) ->
  delimiters_ok cfg = true -> DOWNSAMPLE_FACTOR cfg <> 0 -> columns_indexes <> [] ->
  rows_values cfg columns_indexes
    (participating_lines cfg (first_line_index cfg) lines) = Some vss ->
  create_dataset cfg lines columns_indexes = (Ok tt, dataset_of cfg vss).
Proof.
  intros HB HL Hd HF Hc Hvss.
  destruct (loop_total cfg columns_indexes lines Hd HF Hc _ initial_state vss Hvss)
    as [st Hrun].
  unfold create_dataset. rewrite Hrun. f_equal.
  destruct (loop_ok cfg columns_indexes lines _ _ _ _ _ (Inv_start cfg columns_indexes) Hrun)
    as [processed [rest [vss_p [nw [p' [E [Hvp [HI [Hcat [Hend [Hb Hle]]]]]]]]]]].
  cbn [List.app] in *. destruct HI as [[Hout [Hnb Hwin]] [Hbuf Hpend]].
  assert (Hlt : (List.length p' < Z.to_nat (BUFFER_SIZE cfg))%nat)
    by (assert (Z.of_nat (List.length p') < BUFFER_SIZE cfg) by (apply Hb; cbn; lia); lia).
  assert (Hsize : (1 <= Z.to_nat (BUFFER_SIZE cfg))%nat) by lia.
  assert (Hws : Forall (fun w : list (list string) =>
                          List.length w = Z.to_nat (BUFFER_SIZE cfg)) nw).
  { eapply Forall_impl; [|exact Hwin]. intros w [Hw _]. lia. }
  assert (Hempty : lines_to_build_reached cfg st = true -> p' = []).
  { intros Hreached. apply (concat_rows_nil columns_indexes p' Hc Hpend).
    rewrite <- Hbuf.
    destruct (loop_reachable cfg columns_indexes lines _ _ _
                (reachable_start cfg columns_indexes) Hrun) as [j Hj].
    eapply reachable_reached_empty; eauto. }
  assert (Hst : st = mkState (Z.of_nat (List.length nw)) (List.concat p')
                       (render (map (@List.concat string) nw)))
    by (destruct st; cbn in *; congruence).
  subst lines. rewrite participating_lines_app, rows_values_app, Hvp in Hvss.
  destruct (rows_values cfg columns_indexes
              (participating_lines cfg
                 (first_line_index cfg + Z.of_nat (List.length processed)) rest))
    as [vss_r|] eqn:Hvr; [|discriminate].
  inversion Hvss; subst vss. clear Hvss. rewrite <- Hcat.
  unfold dataset_of. rewrite <- app_assoc.
  rewrite (windows_of_app _ Hsize nw (p' ++ vss_r) Hws).
  destruct Hend as [-> | Hreached].
  - cbn in Hvr. inversion Hvr; subst vss_r. rewrite app_nil_r.
    rewrite (windows_of_short _ Hsize p' Hlt). cbn [fst snd]. rewrite app_nil_r.
    destruct (LINES_TO_BUILD cfg) as [|L] eqn:EL; [exact Hst|].
    destruct (L <=? Z.of_nat (List.length nw)) eqn:Hcmp; [|exact Hst].
    apply Z.leb_le in Hcmp.
    assert (HnbL : nb_lines_built st <= L) by (apply (Hle L eq_refl); cbn; auto).
    assert (HLeq : L = Z.of_nat (List.length nw)) by lia.
    assert (Hreached : lines_to_build_reached cfg st = true).
    { unfold lines_to_build_reached. rewrite EL. apply Z.leb_le. lia. }
    rewrite (Hempty Hreached) in Hst. rewrite Hst, HLeq, Nat2Z.id, firstn_all.
    reflexivity.
  - rewrite (Hempty Hreached) in *. cbn [List.app] in *.
    unfold lines_to_build_reached in Hreached.
    destruct (LINES_TO_BUILD cfg) as [|L] eqn:EL; [discriminate|].
    apply Z.leb_le in Hreached.
    assert (HnbL : nb_lines_built st <= L) by (apply (Hle L eq_refl); cbn; auto).
    assert (HLeq : L = Z.of_nat (List.length nw)) by lia.
    destruct (windows_of (Z.to_nat (BUFFER_SIZE cfg)) vss_r) as [ws' r'].
    cbn [fst snd]. rewrite length_app.
    replace (L <=? Z.of_nat (List.length nw + List.length ws')) with true
      by (symmetry; apply Z.leb_le; lia).
    rewrite Hst, HLeq, Nat2Z.id, firstn_app, firstn_all, Nat.sub_diag.
    cbn [firstn]. rewrite app_nil_r. reflexivity.
Qed.

(** ** The sign of the downsample factor *)

Lemma mod_opp_zero (a b : Z) : (a mod - b =? 0) = (a mod b =? 0).
Proof.
  destruct (Z.eq_dec b 0) as [->|Hb]; [reflexivity|].
  destruct (Z.eqb_spec (a mod - b) 0) as [H1|H1], (Z.eqb_spec (a mod b) 0) as [H2|H2];
    try reflexivity; exfalso.
  - apply H2. apply Z.mod_divide; [exact Hb|].
    apply Z.mod_divide in H1; [|lia]. exact (proj1 (Z.divide_opp_l b a) H1).
  - apply H1. apply Z.mod_divide; [lia|].
    apply Z.mod_divide in H2; [|exact Hb]. exact (proj2 (Z.divide_opp_l b a) H2).
Qed.

(** X16.  A negative downsample factor works as its opposite: with the
    factor negated, the loop gives the same result and the same state on
    every stream, from every state. *)
Theorem negative_factor_same {PF : PyFloat} (cfg : config) (columns_indexes : list Z)
    (lines : list string) :
  forall line_index st,
    create_dataset_loop (with_downsample_factor cfg (- DOWNSAMPLE_FACTOR cfg))
      columns_indexes line_index lines st
    = create_dataset_loop cfg columns_indexes line_index lines st.
Proof.
  set (cfg' := with_downsample_factor cfg (- DOWNSAMPLE_FACTOR cfg)).
  assert (Hbuild : forall line_index values st,
             build_buffer cfg' line_index values columns_indexes st
             = build_buffer cfg line_index values columns_indexes st).
  { intros line_index values st. unfold build_buffer.
    change (DOWNSAMPLE_FACTOR cfg') with (- DOWNSAMPLE_FACTOR cfg).
    rewrite mod_opp_zero.
    replace (- DOWNSAMPLE_FACTOR cfg =? 0) with (DOWNSAMPLE_FACTOR cfg =? 0)
      by (destruct (Z.eqb_spec (DOWNSAMPLE_FACTOR cfg) 0),
                   (Z.eqb_spec (- DOWNSAMPLE_FACTOR cfg) 0); lia || reflexivity).
    reflexivity. }
  assert (Hpass : forall line_index line st,
             process_line cfg' columns_indexes line_index line st
             = process_line cfg columns_indexes line_index line st).
  { intros line_index line st. unfold process_line, bind, lift.
    change (read_values_of_line cfg' line) with (read_values_of_line cfg line).
    destruct (read_values_of_line cfg line) as [values|f]; [|reflexivity].
    rewrite Hbuild. reflexivity. }
  induction lines as [|line lines IH]; intros line_index st; [reflexivity|].
  cbn [create_dataset_loop].
  change (lines_to_build_reached cfg' st) with (lines_to_build_reached cfg st).
  destruct (lines_to_build_reached cfg st); [reflexivity|].
  unfold bind. rewrite Hpass.
  destruct (process_line cfg columns_indexes line_index line st) as [[[]|f] st1];
    [apply IH | reflexivity].
Qed.

(** * The further properties at work on sample inputs *)

Lemma fields_join_back_witness :
  @read_values_of_line two_columns (String.append "1,4" Py.nl) = Ok ["1"; "4"]%string
  /\ Py.join (INPUT_FILE_VALUE_DELIMITER two_columns) ["1"; "4"]%string
     = stripped (String.append "1,4" Py.nl).
Proof.
  assert (H : @read_values_of_line two_columns (String.append "1,4" Py.nl)
              = Ok ["1"; "4"]%string) by reflexivity.
  split; [exact H|].
  exact (@fields_join_back IntegralFloat two_columns _ _ H).
Defined.


Lemma run_by_fields_witness :
  Forall2 (fun line line' => fields two_columns line = fields two_columns line')
    [String.append "1,4" Py.nl] [String.append "1,4" (String Py.cr Py.nl)]
  /\ @create_dataset_loop IntegralFloat two_columns [0; 1] 1
       [String.append "1,4" Py.nl] initial_state
     = @create_dataset_loop IntegralFloat two_columns [0; 1] 1
         [String.append "1,4" (String Py.cr Py.nl)] initial_state.
Proof.
  assert (H : Forall2 (fun line line' => fields two_columns line = fields two_columns line')
                [String.append "1,4" Py.nl] [String.append "1,4" (String Py.cr Py.nl)])
    by (constructor; [reflexivity | constructor]).
  split; [exact H|].
  exact (@run_by_fields IntegralFloat two_columns [0; 1] _ _ H 1 initial_state).
Defined.


Lemma format_list_numbers_witness :
  format_list (["x"%string] ++ ["2"%string]) = "1: x  2: 2"%string.
Proof.
  rewrite (proj1 (format_list_numbers ["x"%string] "2"%string)). reflexivity.
Defined.

Lemma get_headers_outcome_witness :
  INPUT_FILE_HAS_HEADERS by_label = true
  /\ delimiters_ok by_label = true
  /\ @get_headers IntegralFloat by_label labelled_lines
     = Ok (Some ["T"; "X"; "Y"]%string, tl labelled_lines, false).
Proof.
  split; [reflexivity|]. split; [reflexivity|].
  exact (proj1 (proj2 (@get_headers_outcome IntegralFloat by_label labelled_lines))
           eq_refl eq_refl).
Defined.

Lemma columns_indexes_shape_witness :
  get_columns_indexes_to_keep by_label (Some ["T"; "X"; "Y"]%string) = Ok [1; 2]
  /\ List.length [1; 2] = List.length (COLUMNS_TO_KEEP by_label)
  /\ [1; 2] <> ([] : list Z).
Proof.
  assert (H : get_columns_indexes_to_keep by_label (Some ["T"; "X"; "Y"]%string)
              = Ok [1; 2]) by reflexivity.
  split; [exact H|].
  destruct (proj1 (columns_indexes_shape by_label (Some ["T"; "X"; "Y"]%string)) [1; 2] H)
    as [Hlen [Hne _]].
  split; [exact Hlen | exact Hne].
Defined.

Lemma negative_index_witness :
  -2 < 0
  /\ - Z.of_nat (List.length ["1"; "2"; "3"]%string) <= -2
  /\ exists value_str,
       nth_error ["1"; "2"; "3"]%string
         (Z.to_nat (Z.of_nat (List.length ["1"; "2"; "3"]%string) + -2))
       = Some value_str
       /\ @keep_column IntegralFloat two_columns 1 ["1"; "2"; "3"]%string (-2) initial_state
          = match @convert_to_float IntegralFloat two_columns value_str (Some 1) false with
            | Ok x => (Ok tt, buffer_extend [@str_of_float IntegralFloat x] initial_state)
            | Fail f => (Fail f, initial_state)
            end.
Proof.
  assert (H1 : -2 < 0) by lia.
  assert (H2 : - Z.of_nat (List.length ["1"; "2"; "3"]%string) <= -2)
    by (vm_compute; discriminate).
  split; [exact H1|]. split; [exact H2|].
  exact (proj1 (@negative_index IntegralFloat two_columns 1 ["1"; "2"; "3"]%string (-2)
                  initial_state H1) H2).
Defined.

Lemma five_lines_run :
  @create_dataset IntegralFloat two_columns five_lines [0; 1] = (Ok tt, five_lines_end).
Proof. vm_compute. reflexivity. Defined.

Lemma loop_app_witness :
  @create_dataset IntegralFloat two_columns four_lines [0; 1] = (Ok tt, four_lines_end)
  /\ @create_dataset IntegralFloat two_columns (four_lines ++ ["9,10"%string]) [0; 1]
     = @create_dataset_loop IntegralFloat two_columns [0; 1]
         (first_line_index two_columns + Z.of_nat (List.length four_lines))
         ["9,10"%string] four_lines_end.
Proof.
  split; [exact four_lines_run|].
  exact (proj2 (proj2 (@loop_app IntegralFloat two_columns [0; 1] four_lines
                         ["9,10"%string])) four_lines_end four_lines_run).
Defined.

Lemma output_append_only_witness :
  @create_dataset IntegralFloat two_columns four_lines [0; 1] = (Ok tt, four_lines_end)
  /\ @create_dataset IntegralFloat two_columns (four_lines ++ ["9,10"%string]) [0; 1]
     = (Ok tt, five_lines_end)
  /\ (exists written,
         output_file five_lines_end = String.append (output_file four_lines_end) written)
  /\ nb_lines_built four_lines_end <= nb_lines_built five_lines_end.
Proof.
  split; [exact four_lines_run|]. split; [exact five_lines_run|].
  exact (@output_append_only IntegralFloat two_columns [0; 1] four_lines ["9,10"%string]
           (Ok tt) (Ok tt) four_lines_end five_lines_end four_lines_run five_lines_run).
Defined.


Lemma lines_after_limit_ignored_witness :
  @create_dataset IntegralFloat every_other eight_values [0; 1] = (Ok tt, every_other_end)
  /\ lines_to_build_reached every_other every_other_end = true
  /\ @create_dataset IntegralFloat every_other
       (eight_values ++ ["not, numbers"; ";"]%string) [0; 1]
     = (Ok tt, every_other_end).
Proof.
  split; [exact every_other_run|]. split; [reflexivity|].
  exact (@lines_after_limit_ignored IntegralFloat every_other [0; 1] eight_values
           ["not, numbers"; ";"]%string every_other_end every_other_run eq_refl).
Defined.

Lemma skipped_line_not_validated_witness :
  delimiters_ok every_other = true
  /\ DOWNSAMPLE_FACTOR every_other <> 0
  /\ [0; 1] <> ([] : list Z)
  /\ 1 mod DOWNSAMPLE_FACTOR every_other <> 0
  /\ @process_line IntegralFloat every_other [0; 1] 1 "no number here" initial_state
     = (Ok tt, initial_state).
Proof.
  assert (HF : DOWNSAMPLE_FACTOR every_other <> 0) by (vm_compute; discriminate).
  assert (Hc : [0; 1] <> ([] : list Z)) by discriminate.
  assert (Hskip : 1 mod DOWNSAMPLE_FACTOR every_other <> 0) by (vm_compute; discriminate).
  split; [reflexivity|]. split; [exact HF|]. split; [exact Hc|]. split; [exact Hskip|].
  apply (proj2 (@skipped_line_not_validated IntegralFloat every_other [0; 1] 1
                  "no number here"%string initial_state eq_refl HF Hc Hskip)).
  vm_compute. discriminate.
Defined.

Lemma uncaught_exceptions_witness :
  @main IntegralFloat zero_factor ["1"%string]
  = (Fail (Uncaught ZeroDivisionError), initial_state)
  /\ DOWNSAMPLE_FACTOR zero_factor = 0.
Proof.
  assert (H : @main IntegralFloat zero_factor ["1"%string]
              = (Fail (Uncaught ZeroDivisionError), initial_state))
    by (vm_compute; reflexivity).
  split; [exact H|].
  exact (proj1 (@uncaught_exceptions IntegralFloat zero_factor) ["1"%string]
           initial_state H).
Defined.

Lemma run_closed_form_witness :
  1 <= BUFFER_SIZE two_columns
  /\ (forall L, LINES_TO_BUILD two_columns = Lines L -> 0 <= L)
  /\ delimiters_ok two_columns = true
  /\ DOWNSAMPLE_FACTOR two_columns <> 0
  /\ [0; 1] <> ([] : list Z)
  /\ @rows_values IntegralFloat two_columns [0; 1]
       (participating_lines two_columns (first_line_index two_columns) four_lines)
     = Some four_rows
  /\ dataset_of two_columns four_rows = four_lines_end
  /\ @create_dataset IntegralFloat two_columns four_lines [0; 1]
     = (Ok tt, dataset_of two_columns four_rows).
Proof.
  assert (HB : 1 <= BUFFER_SIZE two_columns) by (vm_compute; discriminate).
  assert (HL : forall L, LINES_TO_BUILD two_columns = Lines L -> 0 <= L)
    by (intros L H; inversion H).
  assert (HF : DOWNSAMPLE_FACTOR two_columns <> 0) by (vm_compute; discriminate).
  assert (Hc : [0; 1] <> ([] : list Z)) by discriminate.
  assert (Hrows : @rows_values IntegralFloat two_columns [0; 1]
                    (participating_lines two_columns (first_line_index two_columns)
                       four_lines) = Some four_rows) by (vm_compute; reflexivity).
  split; [exact HB|]. split; [exact HL|]. split; [reflexivity|]. split; [exact HF|].
  split; [exact Hc|]. split; [exact Hrows|]. split; [vm_compute; reflexivity|].
  exact (@run_closed_form IntegralFloat two_columns [0; 1] four_lines four_rows
           HB HL eq_refl HF Hc Hrows).
Defined.
